(** * Swingline: Voronoi diagrams by depth-buffered cones

    A shallow embedding of [swingline.c] and of its GLSL shaders, with the
    theorems that relate the program to its specification.

    Conventions of the embedding:
    - [size_t] is a 64-bit unsigned integer, a [Z] reduced modulo [2^64]
      after every operation;
    - a [float] computed on the CPU for the instance offsets is the exact
      rational it denotes ([Q]); the cone ring, which goes through [cos] and
      [sin], is a real number ([R]); rounding is not modelled;
    - the program runs in a state monad over a [world] (standard error, the
      log of backend calls, the generator state) against an environment
      [env] that holds what the C library, the allocator, the windowing
      layer and the rasterization backend answer;
    - undefined behaviour (a store outside an allocation or through a null
      pointer) is a result of its own, [Undefined];
    - the log holds the calls that change the state of the backend or of
      the window, not the queries ([glGetShaderiv], [glGetString],
      [glCheckFramebufferStatus], ...), whose answers come from [env];
    - loops take fuel; the theorems give the fuel that suffices. *)

From Stdlib Require Import ZArith QArith Qround Reals Lia ZifyBool Psatz List String Ascii Bool.
From stdpp Require Import base list gmap.
Import ListNotations.

Open Scope Z_scope.

(** ** Machine integers *)

Module SizeT.

Definition bits : Z := 64.
Definition modulus : Z := 2 ^ bits.
Definition SIZE_MAX : Z := modulus - 1.

(** The value a [size_t] expression takes: reduction modulo [2^64]. *)
Definition wrap (z : Z) : Z := z mod modulus.

Definition add (a b : Z) : Z := wrap (a + b).
Definition mul (a b : Z) : Z := wrap (a * b).

(** [sizeof(float)] *)
Definition sizeof_float : Z := 4.

End SizeT.

(** ** The Voronoi vertex stage ([voronoi_vert_src])

    [gl_InstanceID] is a GLSL [int]; [%] and [/] on [int] truncate, which is
    [Z.rem] and [Z.quot]. *)

Module Shader.

Definition vec2 : Type := Q * Q.
Definition vec3 : Type := Q * Q * Q.
Definition vec4 : Type := Q * Q * Q * Q.

(** The three integer channels [r], [g], [b] of the vertex stage. *)
Definition instance_rgb (gl_InstanceID : Z) : Z * Z * Z :=
  let r := Z.rem gl_InstanceID 256 in
  let g := Z.rem (Z.quot gl_InstanceID 256) 256 in
  let b := Z.rem (Z.quot gl_InstanceID 65536) 256 in
  (r, g, b).

(** [color_ = vec3(r / 255.0f, g / 255.0f, b / 255.0f)] *)
Definition instance_color (gl_InstanceID : Z) : vec3 :=
  let '(r, g, b) := instance_rgb gl_InstanceID in
  (inject_Z r / 255, inject_Z g / 255, inject_Z b / 255)%Q.

(** [gl_Position = vec4(pos.xy + offset, pos.z, 1.0f)] *)
Definition vertex_position (pos : vec3) (offset : vec2) : vec4 :=
  let '(px, py, pz) := pos in
  let '(ox, oy) := offset in
  (px + ox, py + oy, pz, 1)%Q.

(** [voronoi_vert_src]: position and forwarded colour of one vertex of one
    instance. *)
Definition voronoi_vert (pos : vec3) (offset : vec2) (gl_InstanceID : Z)
  : vec4 * vec3 :=
  (vertex_position pos offset, instance_color gl_InstanceID).

(** [voronoi_frag_src]: [color = vec4(color_, 1.0f)]. *)
Definition voronoi_frag (color_ : vec3) : vec4 :=
  let '(r, g, b) := color_ in (r, g, b, 1%Q).

(** Conversion of a colour component in [[0,1]] to an unsigned normalized
    8-bit channel of the [GL_RGB]/[GL_UNSIGNED_BYTE] attachment: scale by
    255, round to nearest, clamp. *)
Definition to_unorm8 (c : Q) : Z :=
  Z.max 0 (Z.min 255 (Qfloor (c * 255 + (1 # 2))%Q)).

Definition store_rgb8 (c : vec4) : Z * Z * Z :=
  let '(r, g, b, _) := c in (to_unorm8 r, to_unorm8 g, to_unorm8 b).

(** The bytes the colour attachment holds where instance [k] is visible. *)
Definition encode (k : Z) : Z * Z * Z :=
  store_rgb8 (voronoi_frag (instance_color k)).

(** Equality of colours, component by component, as rationals. *)
Definition color_eq (c d : vec3) : Prop :=
  let '(cr, cg, cb) := c in
  let '(dr, dg, db) := d in
  (cr == dr /\ cg == dg /\ cb == db)%Q.

(** A colour lies in the unit cube. *)
Definition in_unit_cube (c : vec3) : Prop :=
  let '(r, g, b) := c in
  (0 <= r <= 1 /\ 0 <= g <= 1 /\ 0 <= b <= 1)%Q.

End Shader.

(** The inverse of the encoding, as the specification words it: the three
    8-bit channels read as a 24-bit little-endian number.  The program has
    no decoder of its own. *)
Definition spec_decode (rgb : Z * Z * Z) : Z :=
  let '(r, g, b) := rgb in r + 256 * g + 65536 * b.

(** ** The environment of a run *)

(** Names of the backend's enumerants, as the program spells them. *)
Inductive GLenum : Type :=
| GL_VERTEX_SHADER | GL_FRAGMENT_SHADER
| GL_ARRAY_BUFFER | GL_STATIC_DRAW | GL_FLOAT
| GL_TRIANGLE_FAN
| GL_FRAMEBUFFER | GL_COLOR_ATTACHMENT0 | GL_DEPTH_ATTACHMENT
| GL_TEXTURE_2D | GL_TEXTURE0
| GL_RGB | GL_DEPTH_COMPONENT | GL_UNSIGNED_BYTE
| GL_TEXTURE_WRAP_S | GL_TEXTURE_WRAP_T
| GL_TEXTURE_MAG_FILTER | GL_TEXTURE_MIN_FILTER
| GL_CLAMP | GL_LINEAR
| GL_DEPTH_TEST
| GLFW_CONTEXT_VERSION_MAJOR | GLFW_CONTEXT_VERSION_MINOR
| GLFW_OPENGL_FORWARD_COMPAT | GLFW_OPENGL_PROFILE.

(** [GL_FRAMEBUFFER_COMPLETE], the one status value the program compares an
    [int] with (its value in the backend's headers). *)
Definition GL_FRAMEBUFFER_COMPLETE : Z := 36053.

(** The C library's generator: [RAND_MAX], the state [srand] installs and
    the step [rand] takes (the value returned and the next state). *)
Record libc : Type := {
  RAND_MAX : Z;
  srand : Z -> Z;
  rand : Z -> Z * Z
}.

(** What the standard asks of [rand]: a value between 0 and [RAND_MAX],
    and [RAND_MAX] at least 32767. *)
Definition libc_ok (L : libc) : Prop :=
  32767 <= RAND_MAX L /\ forall s, 0 <= fst (rand L s) <= RAND_MAX L.

(** Everything a run takes from outside the program. *)
Record env : Type := {
  c_lib : libc;
  (** does the [k]-th call of [malloc], for [bytes] bytes, succeed *)
  malloc_ok : nat -> Z -> bool;
  glfw_init_ok : bool;
  window_ok : bool;
  (** the string [glGetString(GL_VERSION)] points to *)
  gl_version : string;
  (** [GL_COMPILE_STATUS] and the information log of a shader stage *)
  compile_ok : GLenum -> string -> bool;
  compile_log : GLenum -> string -> string;
  (** [GL_LINK_STATUS] and the information log of a program *)
  link_ok : Z -> Z -> bool;
  link_log : Z -> Z -> string;
  (** the value of [glCheckFramebufferStatus] *)
  framebuffer_status : Z;
  (** [glfwWindowShouldClose] at the head of frame [k] *)
  should_close : nat -> bool;
  (** entropy the system offers (clock, entropy pool) *)
  system_entropy : Z
}.

(** A float array handed to the backend: the cone ring holds reals, the
    offsets and the quad hold rationals; a cell never written is [None]. *)
Inductive fdata : Type :=
| NullData
| RealData (cells : list (option R))
| RatData (cells : list (option Q)).

(** The calls the program issues to the backend and the windowing layer,
    with their arguments; object names are [Z]. *)
Inductive gl_call : Type :=
| glfwInit
| glfwWindowHint (hint : GLenum) (value : Z)
| glfwCreateWindow (width height : Z) (title : string)
| glfwMakeContextCurrent
| glfwSwapBuffers
| glfwPollEvents
| glCreateShader (type : GLenum) (name : Z)
| glShaderSource (shader : Z) (src : string)
| glCompileShader (shader : Z)
| glCreateProgram (name : Z)
| glAttachShader (program shader : Z)
| glLinkProgram (program : Z)
| glUseProgram (program : Z)
| glUniform1i (program : Z) (uniform : string) (value : Z)
| glGenBuffers (name : Z)
| glBindBuffer (target : GLenum) (buffer : Z)
| glBufferData (target : GLenum) (bytes : Z) (data : fdata) (usage : GLenum)
| glEnableVertexAttribArray (index : Z)
| glVertexAttribPointer (index size : Z) (type : GLenum) (stride : Z)
| glVertexAttribDivisor (index divisor : Z)
| glGenVertexArrays (name : Z)
| glBindVertexArray (vao : Z)
| glGenTextures (name : Z)
| glBindTexture (target : GLenum) (texture : Z)
| glActiveTexture (unit : GLenum)
| glTexParameter (target pname param : GLenum)
| glTexImage2D (target internal : GLenum) (width height : Z)
    (format type : GLenum)
| glGenFramebuffers (name : Z)
| glBindFramebuffer (target : GLenum) (fbo : Z)
| glFramebufferTexture2D (target attachment textarget : GLenum)
    (texture : Z)
| glEnable (cap : GLenum)
| glClearColor (r g b a : Q)
| glClearDepth (d : Q)
| glClear (color depth : bool)
| glDrawArrays (mode : GLenum) (first count : Z)
| glDrawArraysInstanced (mode : GLenum) (first count instances : Z).

(** One [fprintf(stderr, format, ...)]: the format string and the values
    of its conversions. *)
Inductive fprintf_arg : Type :=
| ArgString (s : string)
| ArgInt (i : Z).

Record diagnostic : Type := {
  format : string;
  args : list fprintf_arg
}.

(** The state a run threads: calls and diagnostics newest first. *)
Record world : Type := {
  rng : Z;
  stderr : list diagnostic;
  calls : list gl_call;
  names : Z;
  mallocs : nat;
  polls : nat
}.

(** The backend log and the standard error stream in the order of issue. *)
Definition gl_log (w : world) : list gl_call := rev (calls w).
Definition stderr_log (w : world) : list diagnostic := rev (stderr w).

(** ** The monad of the program *)

Inductive outcome (A : Type) : Type :=
| Done (a : A) (w : world)          (* the function returned [a] *)
| Exited (status : Z) (w : world)   (* [exit(status)] was called *)
| Aborted (w : world)               (* an [assert] failed *)
| Undefined (w : world)             (* undefined behaviour was reached *)
| OutOfFuel.                        (* the loop bound of the model ran out *)
Arguments Done {A} a w.
Arguments Exited {A} status w.
Arguments Aborted {A} w.
Arguments Undefined {A} w.
Arguments OutOfFuel {A}.

Definition prog (A : Type) : Type := world -> outcome A.

Definition ret {A} (a : A) : prog A := fun w => Done a w.

Definition bind {A B} (m : prog A) (k : A -> prog B) : prog B :=
  fun w =>
    match m w with
    | Done a w' => k a w'
    | Exited c w' => Exited c w'
    | Aborted w' => Aborted w'
    | Undefined w' => Undefined w'
    | OutOfFuel => OutOfFuel
    end.

Declare Scope prog_scope.
Delimit Scope prog_scope with prog.
Notation "x <- m ;; k" := (bind m (fun x => k))
  (at level 100, m at next level, right associativity) : prog_scope.
Notation "m ;; k" := (bind m (fun _ => k))
  (at level 100, right associativity) : prog_scope.
Open Scope prog_scope.

(** [exit(status)] *)
Definition exit {A} (status : Z) : prog A := fun w => Exited status w.

(** Undefined behaviour. *)
Definition undefined {A} : prog A := fun w => Undefined w.

(** [assert(b)] *)
Definition assert (b : bool) : prog unit :=
  fun w => if b then Done tt w else Aborted w.

(** Issue one call to the backend. *)
Definition gl (c : gl_call) : prog unit :=
  fun w => Done tt {| rng := rng w; stderr := stderr w;
                      calls := c :: calls w; names := names w;
                      mallocs := mallocs w; polls := polls w |}.

(** [fprintf(stderr, format, args...)] *)
Definition fprintf_stderr (fmt : string) (a : list fprintf_arg) : prog unit :=
  fun w => Done tt {| rng := rng w;
                      stderr := {| format := fmt; args := a |} :: stderr w;
                      calls := calls w; names := names w;
                      mallocs := mallocs w; polls := polls w |}.

(** A [glGen*] or [glCreate*] call: the backend hands out a name not in
    use, here the next positive integer. *)
Definition gen_name : prog Z :=
  fun w => Done (names w + 1)
                {| rng := rng w; stderr := stderr w; calls := calls w;
                   names := names w + 1;
                   mallocs := mallocs w; polls := polls w |}.

(** ** Heap blocks of floats *)

(** What [malloc] returns: a null pointer, or a block of cells none of which
    is initialized. *)
Definition block (V : Type) : Type := option (list (option V)).

Definition fresh_block {V} (bytes : Z) : list (option V) :=
  replicate (Z.to_nat (bytes / SizeT.sizeof_float)) None.

(** [buf[i] = v]: undefined through a null pointer and outside the block. *)
Definition store {V} (b : block V) (i : Z) (v : V) : prog (block V) :=
  match b with
  | None => undefined
  | Some cells =>
      if (0 <=? i) && (i <? Z.of_nat (length cells))
      then ret (Some (<[Z.to_nat i := Some v]> cells))
      else undefined
  end.

(** ** The program *)

Definition GL_TRUE : Z := 1.
Definition GLFW_OPENGL_CORE_PROFILE : Z := 204801.

(** The shader sources, as the [GLSL] macro stringizes them. *)
Definition voronoi_vert_src : string :=
"#version 330 core
layout(location=0) in vec3 pos; layout(location=1) in vec2 offset; out vec3 color_; void main() { gl_Position = vec4(pos.xy + offset, pos.z, 1.0f); int r = gl_InstanceID % 256; int g = (gl_InstanceID / 256) % 256; int b = (gl_InstanceID / 65536) % 256; color_ = vec3(r / 255.0f, g / 255.0f, b / 255.0f); }".

Definition voronoi_frag_src : string :=
"#version 330 core
in vec3 color_; layout (location=0) out vec4 color; void main() { color = vec4(color_, 1.0f); }".

Definition quad_vert_src : string :=
"#version 330 core
layout(location=0) in vec2 pos; void main() { gl_Position = vec4(pos, 0.0f, 1.0f); }".

Definition blit_frag_src : string :=
"#version 330 core
layout (location=0) out vec4 color; layout (pixel_center_integer) in vec4 gl_FragCoord; uniform sampler2D tex; void main() { vec4 t = texelFetch(tex, ivec2(gl_FragCoord.x, gl_FragCoord.y), 0); color = vec4(t.xyz, 1.0f); }".

Definition newline : string := String (ascii_of_nat 10) EmptyString.

Definition shader_failed_fmt : string :=
  "Error: shader failed with error '%s'" ++ newline.
Definition linking_failed_fmt : string :=
  "Error: linking failed with error '%s'" ++ newline.
Definition glfw_failed_fmt : string :=
  "Error: Failed to initialize GLFW!" ++ newline.
Definition window_failed_fmt : string :=
  "Error:  Failed to create window".
Definition context_old_fmt : string :=
  "Error: OpenGL context is too old (require 3.3, got %lu.%lu)" ++ newline.
Definition framebuffer_incomplete_fmt : string :=
  "Error: framebuffer is incomplete (%i)" ++ newline.

(** The value one draw of [rand] is turned into:
    [((float)rand() / RAND_MAX - 0.5) * 2]. *)
Definition offset_of_rand (rand_max r : Z) : Q :=
  ((inject_Z r / inject_Z rand_max - (1 # 2)) * 2)%Q.

(** The angle of ring vertex [i]: [2 * M_PI * i / n]. *)
Definition ring_angle (n i : Z) : R := (2 * PI * IZR i / IZR n)%R.

Section Program.

Variable E : env.

(** [malloc(bytes)]: whether the allocator finds the block. *)
Definition malloc_raw (bytes : Z) : prog bool :=
  fun w =>
    Done (malloc_ok E (mallocs w) bytes)
         {| rng := rng w; stderr := stderr w; calls := calls w;
            names := names w; mallocs := S (mallocs w); polls := polls w |}.

(** [(float* )malloc(bytes)] *)
Definition malloc {V} (bytes : Z) : prog (block V) :=
  ok <- malloc_raw bytes ;;
  ret (if ok then Some (fresh_block bytes) else None).

(** [(GLchar* )malloc(bytes)]: a null pointer ([None]) or a character
    buffer that holds no string yet ([Some None]). *)
Definition malloc_chars (bytes : Z) : prog (option (option string)) :=
  ok <- malloc_raw bytes ;;
  ret (if ok then Some None else None).

(** [rand()] *)
Definition c_rand : prog Z :=
  fun w =>
    let '(v, s) := rand (c_lib E) (rng w) in
    Done v {| rng := s; stderr := stderr w; calls := calls w;
              names := names w; mallocs := mallocs w; polls := polls w |}.

(** [glfwPollEvents()] ends a frame. *)
Definition poll_events : prog unit :=
  fun w =>
    Done tt {| rng := rng w; stderr := stderr w;
               calls := glfwPollEvents :: calls w;
               names := names w; mallocs := mallocs w;
               polls := S (polls w) |}.

(** [glfwWindowShouldClose(win)] *)
Definition window_should_close : prog bool :=
  fun w => Done (should_close E (polls w)) w.

(** The loop of [build_cone]:
    [for (size_t i = 0; i <= n; ++i) { ... }], from [i] on. *)
Fixpoint cone_loop (fuel : nat) (n i : Z) (buf : block R) : prog (block R) :=
  match fuel with
  | O => fun _ => OutOfFuel
  | S fuel' =>
      if i <=? n then
        let angle := ring_angle n i in
        buf <- store buf (SizeT.add (SizeT.mul i 3) 3) (cos angle) ;;
        buf <- store buf (SizeT.add (SizeT.mul i 3) 4) (sin angle) ;;
        buf <- store buf (SizeT.add (SizeT.mul i 3) 5) 1%R ;;
        cone_loop fuel' n (SizeT.add i 1) buf
      else ret buf
  end.

Definition upload {V} (wrapd : list (option V) -> fdata) (b : block V)
  : fdata :=
  match b with
  | None => NullData
  | Some cells => wrapd cells
  end.

(** [build_cone(n)]; the buffer it hands to the backend is returned as
    well, for the theorems to speak of. *)
Definition build_cone (fuel : nat) (n : Z) : prog (block R) :=
  let bytes :=
    SizeT.mul (SizeT.mul (SizeT.add n 2) 3) SizeT.sizeof_float in
  buf <- malloc bytes ;;
  buf <- store buf 0 0%R ;;
  buf <- store buf 1 0%R ;;
  buf <- store buf 2 (-1)%R ;;
  buf <- cone_loop fuel n 0 buf ;;
  vbo <- gen_name ;;
  gl (glGenBuffers vbo) ;;
  gl (glBindBuffer GL_ARRAY_BUFFER vbo) ;;
  gl (glBufferData GL_ARRAY_BUFFER bytes (upload RealData buf)
        GL_STATIC_DRAW) ;;
  gl (glEnableVertexAttribArray 0) ;;
  gl (glVertexAttribPointer 0 3 GL_FLOAT 0) ;;
  ret buf.

(** The loop of [build_instances]:
    [for (size_t i = 0; i < 2*n; ++i) { buf[i] = ...; }], from [i] on. *)
Fixpoint instances_loop (fuel : nat) (n i : Z) (buf : block Q)
  : prog (block Q) :=
  match fuel with
  | O => fun _ => OutOfFuel
  | S fuel' =>
      if i <? SizeT.mul 2 n then
        r <- c_rand ;;
        buf <- store buf i (offset_of_rand (RAND_MAX (c_lib E)) r) ;;
        instances_loop fuel' n (SizeT.add i 1) buf
      else ret buf
  end.

(** [build_instances(n)]: returns the buffer name, and the buffer handed
    to the backend. *)
Definition build_instances (fuel : nat) (n : Z) : prog (Z * block Q) :=
  let bytes := SizeT.mul (SizeT.mul n 2) SizeT.sizeof_float in
  buf <- malloc bytes ;;
  buf <- instances_loop fuel n 0 buf ;;
  vbo <- gen_name ;;
  gl (glGenBuffers vbo) ;;
  gl (glBindBuffer GL_ARRAY_BUFFER vbo) ;;
  gl (glBufferData GL_ARRAY_BUFFER bytes (upload RatData buf)
        GL_STATIC_DRAW) ;;
  gl (glEnableVertexAttribArray 1) ;;
  gl (glVertexAttribPointer 1 2 GL_FLOAT 0) ;;
  gl (glVertexAttribDivisor 1 1) ;;
  ret (vbo, buf).

(** [build_quad()] *)
Definition quad_verts : list (option Q) :=
  map Some [-1; -1; 1; -1; 1; 1; -1; 1]%Q.

Definition build_quad : prog Z :=
  vao <- gen_name ;;
  gl (glGenVertexArrays vao) ;;
  vbo <- gen_name ;;
  gl (glGenBuffers vbo) ;;
  gl (glBindVertexArray vao) ;;
  gl (glBindBuffer GL_ARRAY_BUFFER vbo) ;;
  gl (glBufferData GL_ARRAY_BUFFER 32 (RatData quad_verts) GL_STATIC_DRAW) ;;
  gl (glEnableVertexAttribArray 0) ;;
  gl (glVertexAttribPointer 0 2 GL_FLOAT 0) ;;
  gl (glBindVertexArray 0) ;;
  ret vao.

(** The length [GL_INFO_LOG_LENGTH] reports: that of the log with its
    terminator, and zero when there is no log. *)
Definition info_log_length (log : string) : Z :=
  match log with
  | EmptyString => 0
  | _ => Z.of_nat (String.length log) + 1
  end.

(** [glGetShaderInfoLog(obj, bufSize, NULL, buf)] and its program twin:
    with room for at least the terminator, the log is copied, cut to
    [bufSize - 1] characters; with [bufSize] zero nothing is written. *)
Definition get_info_log (log : string) (bufSize : Z)
    (buf : option (option string)) : prog (option (option string)) :=
  if bufSize <=? 0 then ret buf
  else match buf with
       | None => undefined
       | Some _ =>
           ret (Some (Some (substring 0 (Z.to_nat (bufSize - 1)) log)))
       end.

(** [fprintf(stderr, fmt, info_log)] with a [%s] conversion: reading a null
    or an uninitialized buffer is undefined. *)
Definition fprintf_log (fmt : string) (buf : option (option string))
  : prog unit :=
  match buf with
  | Some (Some text) => fprintf_stderr fmt [ArgString text]
  | _ => undefined
  end.

Definition is_shader_stage (type : GLenum) : bool :=
  match type with
  | GL_VERTEX_SHADER | GL_FRAGMENT_SHADER => true
  | _ => false
  end.

(** [build_shader(type, src)] *)
Definition build_shader (type : GLenum) (src : string) : prog Z :=
  assert (is_shader_stage type) ;;
  shader <- gen_name ;;
  gl (glCreateShader type shader) ;;
  gl (glShaderSource shader src) ;;
  gl (glCompileShader shader) ;;
  if compile_ok E type src then ret shader
  else
    let log_length := info_log_length (compile_log E type src) in
    info_log <- malloc_chars (SizeT.mul (SizeT.wrap (log_length + 1)) 1) ;;
    info_log <- get_info_log (compile_log E type src) log_length info_log ;;
    fprintf_log shader_failed_fmt info_log ;;
    exit (-1).

(** [build_program(vert, frag)] *)
Definition build_program (vert frag : Z) : prog Z :=
  program <- gen_name ;;
  gl (glCreateProgram program) ;;
  gl (glAttachShader program vert) ;;
  gl (glAttachShader program frag) ;;
  gl (glLinkProgram program) ;;
  if link_ok E vert frag then ret program
  else
    let log_length := info_log_length (link_log E vert frag) in
    info_log <- malloc_chars (SizeT.mul (SizeT.wrap (log_length + 1)) 1) ;;
    info_log <- get_info_log (link_log E vert frag) log_length info_log ;;
    fprintf_log linking_failed_fmt info_log ;;
    exit (-1).

(** [ver[i] - '0'] as a [size_t]: the byte at [i] of the version string,
    its terminator included; past the terminator the read is undefined. *)
Definition version_digit (ver : string) (i : nat) : prog Z :=
  match String.get i ver with
  | Some c => ret (SizeT.wrap (Z.of_nat (nat_of_ascii c) - 48))
  | None =>
      if Nat.eqb i (String.length ver) then ret (SizeT.wrap (0 - 48))
      else undefined
  end.

(** [make_context(width, height)] *)
Definition make_context (width height : Z) : prog unit :=
  gl glfwInit ;;
  (if glfw_init_ok E then ret tt
   else (fprintf_stderr glfw_failed_fmt [] ;; exit (-1))) ;;
  gl (glfwWindowHint GLFW_CONTEXT_VERSION_MAJOR 3) ;;
  gl (glfwWindowHint GLFW_CONTEXT_VERSION_MINOR 3) ;;
  gl (glfwWindowHint GLFW_OPENGL_FORWARD_COMPAT GL_TRUE) ;;
  gl (glfwWindowHint GLFW_OPENGL_PROFILE GLFW_OPENGL_CORE_PROFILE) ;;
  gl (glfwCreateWindow width height "swingline") ;;
  (if window_ok E then ret tt
   else (fprintf_stderr window_failed_fmt [] ;; exit (-1))) ;;
  gl glfwMakeContextCurrent ;;
  major <- version_digit (gl_version E) 0 ;;
  minor <- version_digit (gl_version E) 2 ;;
  if SizeT.add (SizeT.mul major 10) minor <? 33
  then (fprintf_stderr context_old_fmt [ArgInt major; ArgInt minor] ;;
        exit (-1))
  else ret tt.

(** [new_texture()] *)
Definition new_texture : prog Z :=
  tex <- gen_name ;;
  gl (glGenTextures tex) ;;
  gl (glBindTexture GL_TEXTURE_2D tex) ;;
  gl (glTexParameter GL_TEXTURE_2D GL_TEXTURE_WRAP_S GL_CLAMP) ;;
  gl (glTexParameter GL_TEXTURE_2D GL_TEXTURE_WRAP_T GL_CLAMP) ;;
  gl (glTexParameter GL_TEXTURE_2D GL_TEXTURE_MAG_FILTER GL_LINEAR) ;;
  gl (glTexParameter GL_TEXTURE_2D GL_TEXTURE_MIN_FILTER GL_LINEAR) ;;
  ret tex.

(** [render_voronoi(program, fbo, vao, cone_res, point_count)] *)
Definition render_voronoi (program fbo vao cone_res point_count : Z)
  : prog unit :=
  gl (glBindFramebuffer GL_FRAMEBUFFER fbo) ;;
  gl (glEnable GL_DEPTH_TEST) ;;
  gl (glClearColor 1 1 0 1) ;;
  gl (glClearDepth 1) ;;
  gl (glClear true true) ;;
  gl (glUseProgram program) ;;
  gl (glBindVertexArray vao) ;;
  gl (glDrawArraysInstanced GL_TRIANGLE_FAN 0 (SizeT.add cone_res 2)
        point_count) ;;
  gl (glBindVertexArray 0) ;;
  gl (glUseProgram 0) ;;
  gl (glBindFramebuffer GL_FRAMEBUFFER 0).

(** The body of one frame of [main]'s loop. *)
Definition frame : prog unit :=
  gl (glClear true true) ;;
  gl (glDrawArrays GL_TRIANGLE_FAN 0 4) ;;
  gl glfwSwapBuffers ;;
  poll_events.

(** [while (!glfwWindowShouldClose(win)) { ... }] *)
Fixpoint frame_loop (fuel : nat) : prog unit :=
  match fuel with
  | O => fun _ => OutOfFuel
  | S fuel' =>
      close <- window_should_close ;;
      if close then ret tt else (frame ;; frame_loop fuel')
  end.

Definition cone_res : Z := 64.
Definition point_count : Z := 100.
Definition width : Z := 400.
Definition height : Z := 400.

(** The part of [main] that builds the offscreen target and checks it;
    returns the framebuffer and its colour texture. *)
Definition make_offscreen : prog (Z * Z) :=
  fbo0 <- gen_name ;;
  gl (glGenFramebuffers fbo0) ;;
  voronoi_tex <- new_texture ;;
  voronoi_depth <- new_texture ;;
  gl (glBindTexture GL_TEXTURE_2D voronoi_tex) ;;
  gl (glTexImage2D GL_TEXTURE_2D GL_RGB width height
        GL_RGB GL_UNSIGNED_BYTE) ;;
  gl (glBindTexture GL_TEXTURE_2D voronoi_depth) ;;
  gl (glTexImage2D GL_TEXTURE_2D GL_DEPTH_COMPONENT width height
        GL_DEPTH_COMPONENT GL_FLOAT) ;;
  gl (glBindTexture GL_TEXTURE_2D 0) ;;
  voronoi_fbo <- gen_name ;;
  gl (glGenFramebuffers voronoi_fbo) ;;
  gl (glBindFramebuffer GL_FRAMEBUFFER voronoi_fbo) ;;
  gl (glFramebufferTexture2D GL_FRAMEBUFFER GL_COLOR_ATTACHMENT0
        GL_TEXTURE_2D voronoi_tex) ;;
  gl (glFramebufferTexture2D GL_FRAMEBUFFER GL_DEPTH_ATTACHMENT
        GL_TEXTURE_2D voronoi_depth) ;;
  (if framebuffer_status E =? GL_FRAMEBUFFER_COMPLETE then ret tt
   else (fprintf_stderr framebuffer_incomplete_fmt
           [ArgInt (framebuffer_status E)] ;;
         exit (-1))) ;;
  gl (glBindFramebuffer GL_FRAMEBUFFER 0) ;;
  ret (voronoi_fbo, voronoi_tex).

(** The first part of [main], up to the Voronoi program: the context, the
    vertex array with the cone and the offsets, the two stages and the
    program.  Arguments of a call are evaluated left to right.  Returns the
    vertex array, the program and the offsets' buffer. *)
Definition voronoi_parts (fuel : nat) : prog (Z * Z * block Q) :=
  make_context width height ;;
  voronoi_vao <- gen_name ;;
  gl (glGenVertexArrays voronoi_vao) ;;
  gl (glBindVertexArray voronoi_vao) ;;
  build_cone fuel cone_res ;;
  inst <- build_instances fuel point_count ;;
  gl (glBindVertexArray 0) ;;
  vs <- build_shader GL_VERTEX_SHADER voronoi_vert_src ;;
  fs <- build_shader GL_FRAGMENT_SHADER voronoi_frag_src ;;
  voronoi_program <- build_program vs fs ;;
  ret (voronoi_vao, voronoi_program, snd inst).

(** The second part: the blit program and the quad. *)
Definition blit_parts : prog (Z * Z) :=
  qvs <- build_shader GL_VERTEX_SHADER quad_vert_src ;;
  qfs <- build_shader GL_FRAGMENT_SHADER blit_frag_src ;;
  blit_program <- build_program qvs qfs ;;
  quad_vao <- build_quad ;;
  ret (blit_program, quad_vao).

(** [main] *)
Definition main (fuel : nat) : prog Z :=
  parts <- voronoi_parts fuel ;;
  let '(voronoi_vao, voronoi_program, _) := parts in
  target <- make_offscreen ;;
  let '(voronoi_fbo, voronoi_tex) := target in
  blit <- blit_parts ;;
  let '(blit_program, quad_vao) := blit in
  render_voronoi voronoi_program voronoi_fbo voronoi_vao
    cone_res point_count ;;
  gl (glUseProgram blit_program) ;;
  gl (glBindVertexArray quad_vao) ;;
  gl (glActiveTexture GL_TEXTURE0) ;;
  gl (glBindTexture GL_TEXTURE_2D voronoi_tex) ;;
  gl (glUniform1i blit_program "tex" 0) ;;
  gl (glClearColor 0 0 0 1) ;;
  gl (glClearDepth 1) ;;
  frame_loop fuel ;;
  ret 0.

(** The state a process starts in: no call of [srand] has been made, so
    the generator is in the state [srand(1)] installs. *)
Definition initial_world : world :=
  {| rng := srand (c_lib E) 1; stderr := []; calls := []; names := 0;
     mallocs := 0%nat; polls := 0%nat |}.

(** A run of the program. *)
Definition run (fuel : nat) : outcome Z := main fuel initial_world.

End Program.

(** ** Worlds after a function has run *)

(** [w] after [issued] more calls (newest first), [named] more names,
    [allocated] more allocations, the generator left in state [r]. *)
Definition advance (w : world) (r : Z) (issued : list gl_call) (named : Z)
    (allocated : nat) : world :=
  {| rng := r; stderr := stderr w; calls := issued ++ calls w;
     names := names w + named; mallocs := (allocated + mallocs w)%nat;
     polls := polls w |}.

(** [w] with the generator left in state [r]. *)
Definition reseed (w : world) (r : Z) : world :=
  {| rng := r; stderr := stderr w; calls := calls w; names := names w;
     mallocs := mallocs w; polls := polls w |}.

(** [w] after one more diagnostic. *)
Definition complain (w : world) (d : diagnostic) : world :=
  {| rng := rng w; stderr := d :: stderr w; calls := calls w;
     names := names w; mallocs := mallocs w; polls := polls w |}.

(** [w] after [issued] more calls, newest first. *)
Definition issue (w : world) (issued : list gl_call) : world :=
  {| rng := rng w; stderr := stderr w; calls := issued ++ calls w;
     names := names w; mallocs := mallocs w; polls := polls w |}.

(** [w] after [n] more frames have been polled. *)
Definition polled (w : world) (n : nat) : world :=
  {| rng := rng w; stderr := stderr w; calls := calls w;
     names := names w; mallocs := mallocs w; polls := (n + polls w)%nat |}.

(** The status the parent of the process reads after [exit(status)]: the
    low eight bits. *)
Definition process_status (status : Z) : Z := status mod 256.

(** The calls of [build_shader] and of [build_program], newest first. *)
Definition shader_calls (type : GLenum) (shader : Z) (src : string)
  : list gl_call :=
  [ glCompileShader shader; glShaderSource shader src;
    glCreateShader type shader ].

Definition program_calls (program vert frag : Z) : list gl_call :=
  [ glLinkProgram program; glAttachShader program frag;
    glAttachShader program vert; glCreateProgram program ].

(** The calls of [build_cone], newest first. *)
Definition cone_calls (bytes vbo : Z) (data : fdata) : list gl_call :=
  [ glVertexAttribPointer 0 3 GL_FLOAT 0;
    glEnableVertexAttribArray 0;
    glBufferData GL_ARRAY_BUFFER bytes data GL_STATIC_DRAW;
    glBindBuffer GL_ARRAY_BUFFER vbo;
    glGenBuffers vbo ].

(** The calls of [build_instances], newest first. *)
Definition instances_calls (bytes vbo : Z) (data : fdata) : list gl_call :=
  [ glVertexAttribDivisor 1 1;
    glVertexAttribPointer 1 2 GL_FLOAT 0;
    glEnableVertexAttribArray 1;
    glBufferData GL_ARRAY_BUFFER bytes data GL_STATIC_DRAW;
    glBindBuffer GL_ARRAY_BUFFER vbo;
    glGenBuffers vbo ].

(** The calls of the other functions, newest first. *)
Definition context_calls (width height : Z) : list gl_call :=
  [ glfwMakeContextCurrent;
    glfwCreateWindow width height "swingline";
    glfwWindowHint GLFW_OPENGL_PROFILE GLFW_OPENGL_CORE_PROFILE;
    glfwWindowHint GLFW_OPENGL_FORWARD_COMPAT GL_TRUE;
    glfwWindowHint GLFW_CONTEXT_VERSION_MINOR 3;
    glfwWindowHint GLFW_CONTEXT_VERSION_MAJOR 3;
    glfwInit ].

Definition texture_calls (tex : Z) : list gl_call :=
  [ glTexParameter GL_TEXTURE_2D GL_TEXTURE_MIN_FILTER GL_LINEAR;
    glTexParameter GL_TEXTURE_2D GL_TEXTURE_MAG_FILTER GL_LINEAR;
    glTexParameter GL_TEXTURE_2D GL_TEXTURE_WRAP_T GL_CLAMP;
    glTexParameter GL_TEXTURE_2D GL_TEXTURE_WRAP_S GL_CLAMP;
    glBindTexture GL_TEXTURE_2D tex;
    glGenTextures tex ].

(** The calls of [make_offscreen] up to the completeness check, given the
    four names it receives. *)
Definition offscreen_calls (fbo0 tex depth fbo : Z) : list gl_call :=
  [ glFramebufferTexture2D GL_FRAMEBUFFER GL_DEPTH_ATTACHMENT
      GL_TEXTURE_2D depth;
    glFramebufferTexture2D GL_FRAMEBUFFER GL_COLOR_ATTACHMENT0
      GL_TEXTURE_2D tex;
    glBindFramebuffer GL_FRAMEBUFFER fbo;
    glGenFramebuffers fbo;
    glBindTexture GL_TEXTURE_2D 0;
    glTexImage2D GL_TEXTURE_2D GL_DEPTH_COMPONENT width height
      GL_DEPTH_COMPONENT GL_FLOAT;
    glBindTexture GL_TEXTURE_2D depth;
    glTexImage2D GL_TEXTURE_2D GL_RGB width height GL_RGB GL_UNSIGNED_BYTE;
    glBindTexture GL_TEXTURE_2D tex ]
  ++ texture_calls depth ++ texture_calls tex
  ++ [ glGenFramebuffers fbo0 ].

Definition quad_calls (vao vbo : Z) : list gl_call :=
  [ glBindVertexArray 0;
    glVertexAttribPointer 0 2 GL_FLOAT 0;
    glEnableVertexAttribArray 0;
    glBufferData GL_ARRAY_BUFFER 32 (RatData quad_verts) GL_STATIC_DRAW;
    glBindBuffer GL_ARRAY_BUFFER vbo;
    glBindVertexArray vao;
    glGenBuffers vbo;
    glGenVertexArrays vao ].

Definition render_calls (program fbo vao cone_res point_count : Z)
  : list gl_call :=
  [ glBindFramebuffer GL_FRAMEBUFFER 0;
    glUseProgram 0;
    glBindVertexArray 0;
    glDrawArraysInstanced GL_TRIANGLE_FAN 0 (SizeT.add cone_res 2)
      point_count;
    glBindVertexArray vao;
    glUseProgram program;
    glClear true true;
    glClearDepth 1;
    glClearColor 1 1 0 1;
    glEnable GL_DEPTH_TEST;
    glBindFramebuffer GL_FRAMEBUFFER fbo ].

Definition frame_calls : list gl_call :=
  [ glfwPollEvents; glfwSwapBuffers;
    glDrawArrays GL_TRIANGLE_FAN 0 4; glClear true true ].

(** The calls between the offscreen pass and the loop. *)
Definition present_calls (blit quad_vao tex : Z) : list gl_call :=
  [ glClearDepth 1;
    glClearColor 0 0 0 1;
    glUniform1i blit "tex" 0;
    glBindTexture GL_TEXTURE_2D tex;
    glActiveTexture GL_TEXTURE0;
    glBindVertexArray quad_vao;
    glUseProgram blit ].

(** ** Environments in which startup goes through *)

(** The version the context reports passes the test of [make_context]
    (and has the three characters the test reads). *)
Definition version_supported (ver : string) : bool :=
  match String.get 0 ver, String.get 2 ver with
  | Some a, Some b =>
      negb (SizeT.add
              (SizeT.mul (SizeT.wrap (Z.of_nat (nat_of_ascii a) - 48)) 10)
              (SizeT.wrap (Z.of_nat (nat_of_ascii b) - 48)) <? 33)
  | _, _ => false
  end.

Definition context_ok (E : env) : Prop :=
  glfw_init_ok E = true /\ window_ok E = true
  /\ version_supported (gl_version E) = true.

(** Every allocation succeeds. *)
Definition memory_ok (E : env) : Prop :=
  forall k bytes, malloc_ok E k bytes = true.

Definition voronoi_program_ok (E : env) : Prop :=
  compile_ok E GL_VERTEX_SHADER voronoi_vert_src = true
  /\ compile_ok E GL_FRAGMENT_SHADER voronoi_frag_src = true
  /\ forall vert frag, link_ok E vert frag = true.

Definition blit_program_ok (E : env) : Prop :=
  compile_ok E GL_VERTEX_SHADER quad_vert_src = true
  /\ compile_ok E GL_FRAGMENT_SHADER blit_frag_src = true
  /\ forall vert frag, link_ok E vert frag = true.

(** The window asks to close at the head of frame [k], not before. *)
Definition closes_at (E : env) (k : nat) : Prop :=
  should_close E k = true /\ forall j, (j < k)%nat -> should_close E j = false.

(** The offsets of a run: what the first part of [main] uploads for the
    instances. *)
Definition offsets_of_run (E : env) (fuel : nat) : option (block Q) :=
  match voronoi_parts E fuel (initial_world E) with
  | Done (_, _, offsets) _ => Some offsets
  | _ => None
  end.

(** ** What the backend makes of the calls

    The backend is a state machine over its bindings; [gl_step] follows the
    bindings the program relies on and records what each clear, draw and
    buffer swap acts on. *)

Record teximage : Type := {
  internal_format : GLenum;
  image_width : Z;
  image_height : Z;
  pixel_type : GLenum
}.

Inductive observation : Type :=
| Cleared (target : Z) (color : option Shader.vec4) (depth : option Q)
| DrewInstanced (target program : Z) (depth_tested : bool) (mode : GLenum)
    (count instances : Z) (vertices per_instance : option fdata)
| Drew (target program : Z) (mode : GLenum) (count : Z)
    (vertices : option fdata) (texture : Z)
| Swapped.

Record gl_state : Type := {
  array_buffer : Z;
  vertex_array : Z;
  texture_2d : Z;
  framebuffer : Z;
  program_in_use : Z;
  depth_test : bool;
  clear_color : Shader.vec4;
  clear_depth : Q;
  buffers : gmap Z fdata;
  attribs : gmap (Z * Z) Z;
  images : gmap Z teximage;
  color_attachment : gmap Z Z;
  depth_attachment : gmap Z Z;
  observed : list observation
}.

(** The state of a fresh context: nothing bound, depth test off, clear
    colour [(0,0,0,0)], clear depth 1. *)
Definition gl_initial : gl_state :=
  {| array_buffer := 0; vertex_array := 0; texture_2d := 0;
     framebuffer := 0; program_in_use := 0; depth_test := false;
     clear_color := (0, 0, 0, 0)%Q; clear_depth := 1%Q;
     buffers := ∅; attribs := ∅; images := ∅;
     color_attachment := ∅; depth_attachment := ∅; observed := [] |}.

(** The data attribute [index] of the bound vertex array reads. *)
Definition attrib_data (st : gl_state) (index : Z) : option fdata :=
  b ← attribs st !! (vertex_array st, index); buffers st !! b.

Definition observe (o : observation) (st : gl_state) : gl_state :=
  {| array_buffer := array_buffer st; vertex_array := vertex_array st;
     texture_2d := texture_2d st; framebuffer := framebuffer st;
     program_in_use := program_in_use st; depth_test := depth_test st;
     clear_color := clear_color st; clear_depth := clear_depth st;
     buffers := buffers st; attribs := attribs st; images := images st;
     color_attachment := color_attachment st;
     depth_attachment := depth_attachment st;
     observed := o :: observed st |}.

Definition gl_step (c : gl_call) (st : gl_state) : gl_state :=
  let upd ab va tx fb pr dt cc cd bu at_ im ca da :=
    {| array_buffer := ab; vertex_array := va; texture_2d := tx;
       framebuffer := fb; program_in_use := pr; depth_test := dt;
       clear_color := cc; clear_depth := cd; buffers := bu;
       attribs := at_; images := im; color_attachment := ca;
       depth_attachment := da; observed := observed st |} in
  let '(ab, va, tx, fb) :=
    (array_buffer st, vertex_array st, texture_2d st, framebuffer st) in
  let '(pr, dt, cc, cd) :=
    (program_in_use st, depth_test st, clear_color st, clear_depth st) in
  let '(bu, at_, im) := (buffers st, attribs st, images st) in
  let '(ca, da) := (color_attachment st, depth_attachment st) in
  match c with
  | glBindBuffer GL_ARRAY_BUFFER b =>
      upd b va tx fb pr dt cc cd bu at_ im ca da
  | glBufferData GL_ARRAY_BUFFER _ data _ =>
      upd ab va tx fb pr dt cc cd (<[ab := data]> bu) at_ im ca da
  | glVertexAttribPointer index _ _ _ =>
      upd ab va tx fb pr dt cc cd bu (<[(va, index) := ab]> at_) im ca da
  | glBindVertexArray v => upd ab v tx fb pr dt cc cd bu at_ im ca da
  | glBindTexture GL_TEXTURE_2D t =>
      upd ab va t fb pr dt cc cd bu at_ im ca da
  | glTexImage2D GL_TEXTURE_2D internal w h _ type =>
      upd ab va tx fb pr dt cc cd bu at_
        (<[tx := {| internal_format := internal; image_width := w;
                    image_height := h; pixel_type := type |}]> im) ca da
  | glBindFramebuffer GL_FRAMEBUFFER f =>
      upd ab va tx f pr dt cc cd bu at_ im ca da
  | glFramebufferTexture2D GL_FRAMEBUFFER GL_COLOR_ATTACHMENT0
      GL_TEXTURE_2D t =>
      upd ab va tx fb pr dt cc cd bu at_ im (<[fb := t]> ca) da
  | glFramebufferTexture2D GL_FRAMEBUFFER GL_DEPTH_ATTACHMENT
      GL_TEXTURE_2D t =>
      upd ab va tx fb pr dt cc cd bu at_ im ca (<[fb := t]> da)
  | glUseProgram p => upd ab va tx fb p dt cc cd bu at_ im ca da
  | glEnable GL_DEPTH_TEST => upd ab va tx fb pr true cc cd bu at_ im ca da
  | glClearColor r g b a =>
      upd ab va tx fb pr dt (r, g, b, a) cd bu at_ im ca da
  | glClearDepth d => upd ab va tx fb pr dt cc d bu at_ im ca da
  | glClear color depth =>
      observe (Cleared fb (if color then Some cc else None)
                 (if depth then Some cd else None)) st
  | glDrawArraysInstanced mode _ count instances =>
      observe (DrewInstanced fb pr dt mode count instances
                 (attrib_data st 0) (attrib_data st 1)) st
  | glDrawArrays mode _ count =>
      observe (Drew fb pr mode count (attrib_data st 0) tx) st
  | glfwSwapBuffers => observe Swapped st
  | _ => st
  end.

(** The backend state after a log of calls, oldest first. *)
Definition gl_run (log : list gl_call) : gl_state :=
  fold_left (fun st c => gl_step c st) log gl_initial.

(** The clears, draws and swaps of a log, oldest first. *)
Definition observations (log : list gl_call) : list observation :=
  rev (observed (gl_run log)).

(** The offscreen pass and one present pass, as the specification lists
    them. *)
Definition spec_offscreen_pass (fbo prog : Z) (cone offsets : fdata)
  : list observation :=
  [ Cleared fbo (Some (1, 1, 0, 1)%Q) (Some 1%Q);
    DrewInstanced fbo prog true GL_TRIANGLE_FAN (cone_res + 2) point_count
      (Some cone) (Some offsets) ].

Definition spec_present_pass (blit tex : Z) : list observation :=
  [ Cleared 0 (Some (0, 0, 0, 1)%Q) (Some 1%Q);
    Drew 0 blit GL_TRIANGLE_FAN 4 (Some (RatData quad_verts)) tex;
    Swapped ].

(** What one frame of the loop adds to the record of a state, newest
    first, and a state with more on its record. *)
Definition frame_observations (st : gl_state) : list observation :=
  [ Swapped;
    Drew (framebuffer st) (program_in_use st) GL_TRIANGLE_FAN 4
      (attrib_data st 0) (texture_2d st);
    Cleared (framebuffer st) (Some (clear_color st))
      (Some (clear_depth st)) ].

Definition observed_more (st : gl_state) (obs : list observation)
  : gl_state :=
  {| array_buffer := array_buffer st; vertex_array := vertex_array st;
     texture_2d := texture_2d st; framebuffer := framebuffer st;
     program_in_use := program_in_use st; depth_test := depth_test st;
     clear_color := clear_color st; clear_depth := clear_depth st;
     buffers := buffers st; attribs := attribs st; images := images st;
     color_attachment := color_attachment st;
     depth_attachment := depth_attachment st;
     observed := obs ++ observed st |}.

(** ** The offscreen pass on an ideal rasterizer

    What the one instanced draw of [render_voronoi] leaves in a pixel of
    the offscreen target, for cones that are exactly circular (the limit
    of the fan [build_cone] tessellates, which is inscribed in it).

    Instance [k] is the cone of apex [(offsets[k], -1)] and of rim radius
    1 at [z = +1] ([build_cone], moved by the vertex stage).  At distance
    [d <= 1] of the apex its clip-space [z] is [2d - 1] and its window
    depth [(z + 1) / 2 = d]; farther away the cone has no fragment.  The
    depth test is the backend's default, strictly-less, against a buffer
    cleared to 1; instances are rasterized in the order of their index.
    Depths are compared by their squares, which are rational. *)

Module Raster.

Import Shader.

(** Clip-space centre of pixel [(i, j)] of a [W] by [H] viewport. *)
Definition pixel_center (W H : Z) (ij : Z * Z) : vec2 :=
  (inject_Z (2 * fst ij + 1) / inject_Z W - 1,
   inject_Z (2 * snd ij + 1) / inject_Z H - 1)%Q.

(** Squared Euclidean distance in clip space. *)
Definition sqdist (p o : vec2) : Q :=
  ((fst p - fst o) * (fst p - fst o) + (snd p - snd o) * (snd p - snd o))%Q.

(** One pixel of the target: the bytes of the colour attachment and the
    square of the value of the depth attachment. *)
Record sample : Type := {
  color : Z * Z * Z;
  depth2 : Q
}.

(** [glClearColor(1, 1, 0, 1)], [glClearDepth(1)], [glClear]. *)
Definition cleared : sample :=
  {| color := store_rgb8 (1, 1, 0, 1)%Q; depth2 := 1 |}.

Definition Qlt_bool (a b : Q) : bool := negb (Qle_bool b a).

(** The fragment of instance [k], if the cone covers the pixel, against
    the depth test. *)
Definition draw_instance (p : vec2) (k : Z) (o : vec2) (s : sample)
  : sample :=
  let d2 := sqdist p o in
  if Qle_bool d2 1 then
    if Qlt_bool d2 (depth2 s)
    then {| color := encode k; depth2 := d2 |}
    else s
  else s.

(** Instances [k], [k+1], ... in turn. *)
Fixpoint draw_instances (p : vec2) (k : Z) (offsets : list vec2)
    (s : sample) : sample :=
  match offsets with
  | [] => s
  | o :: rest => draw_instances p (k + 1) rest (draw_instance p k o s)
  end.

(** The colour bytes of the pixel at [p] after the offscreen pass. *)
Definition render (offsets : list vec2) (p : vec2) : Z * Z * Z :=
  color (draw_instances p 0 offsets cleared).

(** The instance index the pixel decodes to. *)
Definition owner (offsets : list vec2) (p : vec2) : Z :=
  spec_decode (render offsets p).



(** The invariant of the depth test, after the instances [done]: either no
    fragment has passed, or the sample is the fragment of the first
    instance among the nearest ones. *)
Definition untouched (done : list vec2) (p : vec2) (s : sample) : Prop :=
  s = cleared /\ forall j o, done !! j = Some o -> (1 <= sqdist p o)%Q.

Definition won_by (done : list vec2) (p : vec2) (s : sample) (k : nat)
  : Prop :=
  exists o,
    done !! k = Some o
    /\ s = {| color := encode (Z.of_nat k); depth2 := sqdist p o |}
    /\ (sqdist p o < 1)%Q
    /\ (forall j o', done !! j = Some o' -> (sqdist p o <= sqdist p o')%Q)
    /\ (forall j o', (j < k)%nat -> done !! j = Some o' ->
          (sqdist p o < sqdist p o')%Q).

Definition depth_invariant (done : list vec2) (p : vec2) (s : sample)
  : Prop :=
  untouched done p s \/ exists k, won_by done p s k.

End Raster.

(** ** The buffers, as the specification describes them *)

(** Ring vertex [i] of a cone of [n] segments. *)
Definition ring_vertex (n i : Z) : list R :=
  [cos (ring_angle n i); sin (ring_angle n i); 1%R].

(** The first [k] ring vertices. *)
Definition ring_upto (n : Z) (k : nat) : list R :=
  flat_map (fun j => ring_vertex n (Z.of_nat j)) (seq 0 k).

(** The fan: the apex, then ring vertices [0] to [n]. *)
Definition cone_vertices (n : Z) : list R :=
  [0%R; 0%R; (-1)%R] ++ ring_upto n (S (Z.to_nat n)).


(** [count] successive draws of [rand], turned into offsets, and the state
    of the generator after them. *)
Fixpoint draw_offsets (L : libc) (count : nat) (s : Z) : list Q * Z :=
  match count with
  | O => ([], s)
  | S count' =>
      let '(r, s') := rand L s in
      let '(rest, s'') := draw_offsets L count' s' in
      (offset_of_rand (RAND_MAX L) r :: rest, s'')
  end.

(** ** The log of a run

    Names are handed out in order: the vertex array of the cones is 1, its
    buffers 2 and 3, the Voronoi stages 4 and 5 and their program 6, the
    framebuffer generated first 7, the colour and depth textures 8 and 9,
    the offscreen framebuffer 10, the blit stages 11 and 12 and their
    program 13, the vertex array of the quad 14 and its buffer 15. *)

(** The cone and the offsets [main] uploads. *)
Definition main_cone : fdata := RealData (map Some (cone_vertices cone_res)).

Definition main_draws (L : libc) : list Q * Z :=
  draw_offsets L (Z.to_nat (2 * point_count)) (srand L 1).

Definition main_offsets (L : libc) : fdata :=
  RatData (map Some (fst (main_draws L))).

(** The calls of [voronoi_parts], newest first. *)
Definition parts_calls (L : libc) : list gl_call :=
  program_calls 6 4 5
  ++ shader_calls GL_FRAGMENT_SHADER 5 voronoi_frag_src
  ++ shader_calls GL_VERTEX_SHADER 4 voronoi_vert_src
  ++ [ glBindVertexArray 0 ]
  ++ instances_calls (8 * point_count) 3 (main_offsets L)
  ++ cone_calls (12 * (cone_res + 2)) 2 main_cone
  ++ [ glBindVertexArray 1; glGenVertexArrays 1 ]
  ++ context_calls width height.

(** The calls of [main] up to the completeness check. *)
Definition target_calls (L : libc) : list gl_call :=
  offscreen_calls 7 8 9 10 ++ parts_calls L.

(** The calls of [main] before its loop. *)
Definition startup_calls (L : libc) : list gl_call :=
  present_calls 13 14 8
  ++ render_calls 6 10 1 cone_res point_count
  ++ quad_calls 14 15
  ++ program_calls 13 11 12
  ++ shader_calls GL_FRAGMENT_SHADER 12 blit_frag_src
  ++ shader_calls GL_VERTEX_SHADER 11 quad_vert_src
  ++ [ glBindFramebuffer GL_FRAMEBUFFER 0 ]
  ++ target_calls L.

(** The world in which a run with log [log] (newest first), [named] names
    and [frames] frames ends. *)
Definition end_world (L : libc) (log : list gl_call) (named : Z)
    (frames : nat) : world :=
  {| rng := snd (main_draws L); stderr := []; calls := log;
     names := named; mallocs := 2%nat; polls := frames |}.

(** ** Sample environments *)

(** The generator the C standard gives as an example implementation of
    [rand] and [srand], on a 32-bit [unsigned long]. *)
Definition iso_rand (next : Z) : Z * Z :=
  let next' := (next * 1103515245 + 12345) mod 2 ^ 32 in
  ((next' / 65536) mod 32768, next').

Definition iso_libc : libc :=
  {| RAND_MAX := 32767; srand := fun seed => seed mod 2 ^ 32;
     rand := iso_rand |}.

(** An environment in which nothing fails and the window closes after
    [frames] frames; logs are empty; the system entropy is [entropy]. *)
Definition nominal_env (frames : nat) (entropy : Z) : env :=
  {| c_lib := iso_libc;
     malloc_ok := fun _ _ => true;
     glfw_init_ok := true;
     window_ok := true;
     gl_version := "3.3.0"%string;
     compile_ok := fun _ _ => true;
     compile_log := fun _ _ => EmptyString;
     link_ok := fun _ _ => true;
     link_log := fun _ _ => EmptyString;
     framebuffer_status := GL_FRAMEBUFFER_COMPLETE;
     should_close := fun k => (frames <=? k)%nat;
     system_entropy := entropy |}.

(** The same, with an allocator out of memory. *)
Definition out_of_memory_env : env :=
  {| c_lib := iso_libc;
     malloc_ok := fun _ _ => false;
     glfw_init_ok := true;
     window_ok := true;
     gl_version := "3.3.0"%string;
     compile_ok := fun _ _ => true;
     compile_log := fun _ _ => EmptyString;
     link_ok := fun _ _ => true;
     link_log := fun _ _ => EmptyString;
     framebuffer_status := GL_FRAMEBUFFER_COMPLETE;
     should_close := fun _ => true;
     system_entropy := 0 |}.


(** An environment like [nominal_env] but for the framebuffer status. *)
Definition incomplete_env (status : Z) : env :=
  {| c_lib := iso_libc;
     malloc_ok := fun _ _ => true;
     glfw_init_ok := true;
     window_ok := true;
     gl_version := "3.3.0"%string;
     compile_ok := fun _ _ => true;
     compile_log := fun _ _ => EmptyString;
     link_ok := fun _ _ => true;
     link_log := fun _ _ => EmptyString;
     framebuffer_status := status;
     should_close := fun _ => true;
     system_entropy := 0 |}.

(** ** The blit stages ([quad_vert_src], [blit_frag_src]) *)

Module Blit.

Import Shader.

(** [quad_vert_src]: [gl_Position = vec4(pos, 0.0f, 1.0f)]. *)
Definition quad_vert (pos : vec2) : vec4 :=
  let '(x, y) := pos in (x, y, 0, 1)%Q.

(** What [texelFetch] returns for a texel of a [GL_RGB],
    [GL_UNSIGNED_BYTE] texture: each byte over 255, and alpha 1. *)
Definition texel_of_bytes (rgb : Z * Z * Z) : vec4 :=
  let '(r, g, b) := rgb in
  (inject_Z r / 255, inject_Z g / 255, inject_Z b / 255, 1)%Q.

(** The conversion of a float to an [int]: truncation toward zero. *)
Definition to_int (q : Q) : Z := Z.quot (Qnum q) (Z.pos (Qden q)).

(** [blit_frag_src]:
    [t = texelFetch(tex, ivec2(gl_FragCoord.x, gl_FragCoord.y), 0);
     color = vec4(t.xyz, 1.0f)]. *)
Definition blit_frag (tex : Z * Z -> Z * Z * Z) (gl_FragCoord : vec2)
  : vec4 :=
  let '(r, g, b, _) :=
    texel_of_bytes
      (tex (to_int (fst gl_FragCoord), to_int (snd gl_FragCoord))) in
  (r, g, b, 1%Q).

(** The fragment coordinate of pixel [(i, j)], pixel centres being
    integers ([layout (pixel_center_integer)]). *)
Definition frag_coord (ij : Z * Z) : vec2 :=
  (inject_Z (fst ij), inject_Z (snd ij)).

(** The colour attachment after the offscreen pass of the ideal
    rasterizer, as a texture. *)
Definition offscreen_texture (offsets : list vec2) (ij : Z * Z)
  : Z * Z * Z :=
  Raster.render offsets (Raster.pixel_center width height ij).

End Blit.

(** ** Outcomes of a program, classified *)

(** The calls that clear, draw or present. *)
Definition renders (c : gl_call) : bool :=
  match c with
  | glClear _ _ | glDrawArrays _ _ _ | glDrawArraysInstanced _ _ _ _
  | glfwSwapBuffers => true
  | _ => false
  end.

(** No call of the log clears, draws or presents. *)
Definition silent (w : world) : Prop :=
  Forall (fun c => renders c = false) (calls w).

(** [m] writes to the standard error stream only on its way to
    [exit(-1)], then exactly once; no assertion of it fails; what it
    returns satisfies [P]. *)
Definition exits_cleanly {A} (P : A -> Prop) (m : prog A) : Prop :=
  forall w,
    match m w with
    | Done a w' => P a /\ stderr w' = stderr w
    | Exited status w' => status = -1 /\ exists d, stderr w' = d :: stderr w
    | Aborted _ => False
    | Undefined w' => stderr w' = stderr w
    | OutOfFuel => True
    end.

Definition anything {A} (a : A) : Prop := True.

(** [m] issues no call that clears, draws or presents. *)
Definition startup_like {A} (m : prog A) : Prop :=
  forall w, silent w ->
    match m w with
    | Done _ w' | Exited _ w' | Aborted w' | Undefined w' => silent w'
    | OutOfFuel => True
    end.

(** [m] returns or runs on; it does not exit, abort or reach undefined
    behaviour. *)
Definition never_fails {A} (m : prog A) : Prop :=
  forall w,
    match m w with
    | Done _ _ | OutOfFuel => True
    | _ => False
    end.

(** When [m] exits, aborts or reaches undefined behaviour, nothing has
    been cleared, drawn or presented. *)
Definition fails_before_rendering {A} (m : prog A) : Prop :=
  forall w, silent w ->
    match m w with
    | Done _ _ | OutOfFuel => True
    | Exited _ w' | Aborted w' | Undefined w' => silent w'
    end.

(** The character of the decimal digit [d]. *)
Definition digit_char (d : Z) : ascii := ascii_of_nat (48 + Z.to_nat d).

(** The backend state after more calls, oldest first. *)
Definition gl_steps (log : list gl_call) (st : gl_state) : gl_state :=
  fold_left (fun st c => gl_step c st) log st.

(** An environment like [nominal_env] but for the windowing layer and the
    version the context reports. *)
Definition context_env (init window : bool) (version : string) : env :=
  {| c_lib := iso_libc;
     malloc_ok := fun _ _ => true;
     glfw_init_ok := init;
     window_ok := window;
     gl_version := version;
     compile_ok := fun _ _ => true;
     compile_log := fun _ _ => EmptyString;
     link_ok := fun _ _ => true;
     link_log := fun _ _ => EmptyString;
     framebuffer_status := GL_FRAMEBUFFER_COMPLETE;
     should_close := fun _ => true;
     system_entropy := 0 |}.

(** An environment like [nominal_env] whose window never asks to close. *)
Definition endless_env : env :=
  {| c_lib := iso_libc;
     malloc_ok := fun _ _ => true;
     glfw_init_ok := true;
     window_ok := true;
     gl_version := "3.3.0"%string;
     compile_ok := fun _ _ => true;
     compile_log := fun _ _ => EmptyString;
     link_ok := fun _ _ => true;
     link_log := fun _ _ => EmptyString;
     framebuffer_status := GL_FRAMEBUFFER_COMPLETE;
     should_close := fun _ => false;
     system_entropy := 0 |}.

(** ** Theorems *)

(** *** Colour encoding *)

Lemma to_unorm8_channel (r : Z) :
  0 <= r <= 255 -> Shader.to_unorm8 (inject_Z r / 255)%Q = r.
Proof.
  intros Hr. unfold Shader.to_unorm8.
  assert (Heq : (inject_Z r / 255 * 255 + (1 # 2) == (2 * r + 1) # 2)%Q).
  { unfold Qeq, Qdiv, Qmult, Qplus, Qinv, inject_Z; simpl. lia. }
  rewrite (Qfloor_comp _ _ Heq). unfold Qfloor.
  replace ((2 * r + 1) / Z.pos 2) with r
    by (apply Z.div_unique with (r := 1); lia).
  lia.
Qed.

Lemma instance_rgb_nonneg (k : Z) :
  0 <= k ->
  Shader.instance_rgb k = (k mod 256, (k / 256) mod 256, (k / 65536) mod 256).
Proof.
  intros Hk. unfold Shader.instance_rgb.
  rewrite !Z.quot_div_nonneg by lia.
  rewrite !Z.rem_mod_nonneg by (try apply Z.div_pos; lia).
  reflexivity.
Qed.

Lemma encode_channels (k : Z) :
  0 <= k ->
  Shader.encode k = (k mod 256, (k / 256) mod 256, (k / 65536) mod 256).
Proof.
  intros Hk. unfold Shader.encode, Shader.instance_color.
  rewrite instance_rgb_nonneg by assumption.
  unfold Shader.voronoi_frag, Shader.store_rgb8.
  rewrite !to_unorm8_channel;
    [reflexivity | | | ]; (split; [apply Z.mod_pos_bound | ]; try lia);
    match goal with |- ?a mod 256 <= 255 =>
      pose proof (Z.mod_pos_bound a 256 ltac:(lia)); lia end.
Qed.

Lemma decode_channels (k : Z) :
  0 <= k < 2 ^ 24 ->
  spec_decode (k mod 256, (k / 256) mod 256, (k / 65536) mod 256) = k.
Proof.
  intros Hk. unfold spec_decode.
  assert (H3 : (k / 65536) mod 256 = k / 65536).
  { apply Z.mod_small. split; [apply Z.div_pos; lia|].
    apply Z.div_lt_upper_bound; lia. }
  rewrite H3.
  pose proof (Z.div_mod k 256 ltac:(lia)).
  pose proof (Z.div_mod (k / 256) 256 ltac:(lia)).
  replace (k / 65536) with (k / 256 / 256)
    by (rewrite Z.div_div by lia; reflexivity).
  lia.
Qed.

Lemma Qdiv255_inj (a b : Z) : (inject_Z a / 255 == inject_Z b / 255)%Q -> a = b.
Proof.
  unfold Qeq, Qdiv, Qmult, Qinv, inject_Z; simpl. lia.
Qed.

Lemma Qdiv255_unit (a : Z) : 0 <= a <= 255 -> (0 <= inject_Z a / 255 <= 1)%Q.
Proof.
  intros H. unfold Qle, Qdiv, Qmult, Qinv, inject_Z; simpl. lia.
Qed.

(** C2.  For every instance index [k] with [0 <= k < 2^24]: the vertex
    stage computes the channels [(k mod 256, (k / 256) mod 256,
    (k / 65536) mod 256)]; the colour it forwards, the channels divided by
    255, lies in the unit cube; reading back the three 8-bit channels of
    the colour attachment recovers [k]; and the colour is that of no other
    index below [2^24]. *)
Theorem color_roundtrip_injective (k : Z) (Hk : 0 <= k < 2 ^ 24) :
  Shader.instance_rgb k = (k mod 256, (k / 256) mod 256, (k / 65536) mod 256)
  /\ Shader.in_unit_cube (Shader.instance_color k)
  /\ spec_decode (Shader.encode k) = k
  /\ (forall k', 0 <= k' < 2 ^ 24 ->
        Shader.color_eq (Shader.instance_color k) (Shader.instance_color k') ->
        k = k').
Proof.
  assert (Hb : forall a, 0 <= a mod 256 <= 255).
  { intros a. pose proof (Z.mod_pos_bound a 256 ltac:(lia)). lia. }
  split; [apply instance_rgb_nonneg; lia|].
  split.
  { unfold Shader.instance_color. rewrite instance_rgb_nonneg by lia.
    cbn. repeat split; apply Qdiv255_unit, Hb. }
  split; [rewrite encode_channels by lia; apply decode_channels, Hk|].
  intros k' Hk'. unfold Shader.instance_color.
  rewrite !instance_rgb_nonneg by lia. cbn.
  intros (Hr & Hg & Hbl).
  apply Qdiv255_inj in Hr, Hg, Hbl.
  rewrite <- (decode_channels k Hk), <- (decode_channels k' Hk').
  unfold spec_decode. lia.
Qed.

(** The round trip at the indices 0, 1, 255, 256, 65535, 65536 and 99. *)
Lemma color_roundtrip_samples :
  Forall (fun k => spec_decode (Shader.encode k) = k)
    [0; 1; 255; 256; 65535; 65536; 99].
Proof.
  assert (H : forall k, 0 <= k < 2 ^ 24 -> spec_decode (Shader.encode k) = k)
    by (intros k Hk; apply (color_roundtrip_injective k Hk)).
  repeat (apply List.Forall_cons; [apply H; lia|]). apply List.Forall_nil.
Defined.

(** *** Machine integers and heap blocks *)

Lemma wrap_small (z : Z) : 0 <= z <= SizeT.SIZE_MAX -> SizeT.wrap z = z.
Proof.
  unfold SizeT.SIZE_MAX, SizeT.wrap. intros H. apply Z.mod_small. lia.
Qed.

Lemma size_max_value : SizeT.SIZE_MAX = 18446744073709551615.
Proof. reflexivity. Qed.

(** A store at the first cell not yet written extends the written prefix. *)
Lemma store_next {V} (pre : list V) (rest : list (option V)) (i : Z) (v : V)
    (w : world) :
  i = Z.of_nat (length pre) ->
  store (Some (map Some pre ++ None :: rest)) i v w
  = Done (Some (map Some (pre ++ [v]) ++ rest)) w.
Proof.
  intros ->. unfold store.
  rewrite length_app, length_map. cbn [length].
  replace ((0 <=? Z.of_nat (length pre)) &&
           (Z.of_nat (length pre) <? Z.of_nat (length pre + S (length rest))))
    with true by (symmetry; apply andb_true_iff; split; lia).
  rewrite Nat2Z.id. unfold ret. do 2 f_equal.
  rewrite map_app, <- app_assoc. cbn [map app].
  clear. induction pre as [|x pre IH]; cbn; [reflexivity|]. f_equal. exact IH.
Qed.

(** A store through a null pointer is undefined. *)
Lemma store_null {V} (i : Z) (v : V) (w : world) :
  store None i v w = Undefined w.
Proof. reflexivity. Qed.

(** *** The cone *)

Lemma ring_upto_snoc (n : Z) (k : nat) :
  ring_upto n (S k) = ring_upto n k ++ ring_vertex n (Z.of_nat k).
Proof.
  unfold ring_upto. rewrite seq_S, flat_map_app. cbn [flat_map Nat.add]. rewrite app_nil_r.
  reflexivity.
Qed.

Lemma ring_upto_length (n : Z) (k : nat) : length (ring_upto n k) = (3 * k)%nat.
Proof.
  induction k as [|k IH]; [reflexivity|].
  rewrite ring_upto_snoc, length_app, IH. cbn. lia.
Qed.

Lemma cone_vertices_length (n : Z) :
  length (cone_vertices n) = (3 * (Z.to_nat n + 2))%nat.
Proof.
  unfold cone_vertices. rewrite length_app, ring_upto_length. cbn. lia.
Qed.

(** The loop, entered at [i = k] with the apex and [k] ring vertices
    written and room for [m] more, writes them and leaves. *)
Lemma cone_loop_fill (n : Z) :
  0 <= n -> 3 * n + 5 <= SizeT.SIZE_MAX ->
  forall (m k fuel : nat) (w : world),
    (k + m = S (Z.to_nat n))%nat -> (m < fuel)%nat ->
    cone_loop fuel n (Z.of_nat k)
      (Some (map Some ([0; 0; -1]%R ++ ring_upto n k)
             ++ replicate (3 * m) None)) w
    = Done (Some (map Some (cone_vertices n))) w.
Proof.
  intros Hn Hfit m. induction m as [|m IH]; intros k fuel w Hk Hfuel.
  - destruct fuel as [|fuel]; [lia|]. cbn [cone_loop].
    replace (Z.of_nat k <=? n) with false by lia.
    cbn. rewrite app_nil_r. unfold cone_vertices.
    replace k with (S (Z.to_nat n)) by lia. reflexivity.
  - destruct fuel as [|fuel]; [lia|]. cbn [cone_loop].
    replace (Z.of_nat k <=? n) with true by lia.
    assert (Hlen : length ([0; 0; -1]%R ++ ring_upto n k) = (3 + 3 * k)%nat)
      by (rewrite length_app, ring_upto_length; reflexivity).
    replace (3 * S m)%nat with (S (S (S (3 * m)))) by lia.
    cbn [replicate]. unfold bind.
    unfold SizeT.add, SizeT.mul.
    rewrite (wrap_small (Z.of_nat k * 3)) by lia.
    rewrite !wrap_small by lia.
    set (pre := ([0; 0; -1]%R ++ ring_upto n k)) in *.
    rewrite (store_next pre); [| lia].
    rewrite (store_next (pre ++ [_])); [| rewrite length_app; cbn [length]; lia].
    rewrite (store_next ((pre ++ [_]) ++ [_]));
      [| rewrite !length_app; cbn [length]; lia].
    subst pre.
    replace (Z.of_nat k + 1) with (Z.of_nat (S k)) by lia.
    rewrite <- !app_assoc. cbn [app].
    specialize (IH (S k) fuel w ltac:(lia) ltac:(lia)).
    rewrite ring_upto_snoc in IH. unfold ring_vertex in IH.
    cbn [app] in IH. exact IH.
Qed.

(** [build_cone] on a size that does not wrap, with an allocator that
    finds the block and fuel for the loop. *)
Lemma build_cone_run (E : env) (fuel : nat) (n : Z) (w : world) :
  0 <= n -> 12 * (n + 2) <= SizeT.SIZE_MAX ->
  malloc_ok E (mallocs w) (12 * (n + 2)) = true ->
  (S (Z.to_nat n) < fuel)%nat ->
  build_cone E fuel n w
  = Done (Some (map Some (cone_vertices n)))
      (advance w (rng w)
         (cone_calls (12 * (n + 2)) (names w + 1)
            (RealData (map Some (cone_vertices n)))) 1 1).
Proof.
  intros Hn Hfit Hmalloc Hfuel. unfold build_cone.
  assert (Hbytes : SizeT.mul (SizeT.mul (SizeT.add n 2) 3) SizeT.sizeof_float
                   = 12 * (n + 2)).
  { unfold SizeT.mul, SizeT.add, SizeT.sizeof_float.
    rewrite (wrap_small (n + 2)) by lia.
    rewrite (wrap_small ((n + 2) * 3)) by lia.
    rewrite wrap_small by lia. lia. }
  rewrite Hbytes. unfold malloc, malloc_raw, bind at 1 2. rewrite Hmalloc.
  unfold ret at 1. unfold fresh_block, SizeT.sizeof_float.
  replace (12 * (n + 2) / 4) with (3 * (n + 2))
    by (apply Z.div_unique with (r := 0); lia).
  replace (Z.to_nat (3 * (n + 2)))
    with (S (S (S (3 * S (Z.to_nat n))))) by lia.
  cbn [replicate]. set (rest := replicate _ None).
  set (w1 := {| rng := rng w |}).
  pose proof (store_next [] (None :: None :: rest) 0 0%R w1 eq_refl) as H0.
  pose proof (store_next [0%R] (None :: rest) 1 0%R w1 eq_refl) as H1.
  pose proof (store_next [0%R; 0%R] rest 2 (-1)%R w1 eq_refl) as H2.
  cbn [map app] in H0, H1, H2.
  unfold bind at 1. rewrite H0.
  unfold bind at 1. rewrite H1.
  unfold bind at 1. rewrite H2.
  unfold bind at 1. subst rest.
  change (Some 0%R :: Some 0%R :: Some (-1)%R :: replicate (3 * S (Z.to_nat n)) None)
    with (map Some ([0; 0; -1]%R ++ ring_upto n 0)
          ++ replicate (3 * S (Z.to_nat n)) None).
  rewrite (cone_loop_fill n Hn ltac:(lia) (S (Z.to_nat n)) 0 fuel _
             ltac:(lia) ltac:(lia)).
  reflexivity.
Qed.

(** The vertices of the fan *)







(** *** The instance offsets *)

Lemma draw_offsets_length (L : libc) (count : nat) (s : Z) :
  length (fst (draw_offsets L count s)) = count.
Proof.
  revert s. induction count as [|count IH]; intros s; [reflexivity|].
  cbn [draw_offsets]. destruct (rand L s) as [r s'].
  specialize (IH s'). destruct (draw_offsets L count s') as [rest s''].
  cbn in *. lia.
Qed.

Lemma reseed_same (w : world) : reseed w (rng w) = w.
Proof. destruct w; reflexivity. Qed.

(** The loop, entered at [i = k] with [k] cells written and room for [m]
    more, writes [m] draws and leaves. *)
Lemma instances_loop_fill (E : env) (n : Z) :
  0 <= n -> 2 * n <= SizeT.SIZE_MAX ->
  forall (m k fuel : nat) (pre : list Q) (w : world),
    (k + m = Z.to_nat (2 * n))%nat -> length pre = k -> (m < fuel)%nat ->
    instances_loop E fuel n (Z.of_nat k)
      (Some (map Some pre ++ replicate m None)) w
    = Done (Some (map Some (pre ++ fst (draw_offsets (c_lib E) m (rng w)))))
        (reseed w (snd (draw_offsets (c_lib E) m (rng w)))).
Proof.
  intros Hn Hfit m. induction m as [|m IH]; intros k fuel pre w Hk Hlen Hfuel.
  - destruct fuel as [|fuel]; [lia|]. cbn [instances_loop].
    unfold SizeT.mul. rewrite wrap_small by lia.
    replace (Z.of_nat k <? 2 * n) with false by lia.
    cbn. rewrite !app_nil_r, reseed_same. reflexivity.
  - destruct fuel as [|fuel]; [lia|]. cbn [instances_loop].
    unfold SizeT.mul, SizeT.add. rewrite wrap_small by lia.
    replace (Z.of_nat k <? 2 * n) with true by lia.
    rewrite wrap_small by lia.
    unfold bind at 1. unfold c_rand. cbn [draw_offsets replicate].
    destruct (rand (c_lib E) (rng w)) as [r s'] eqn:Hr.
    unfold bind at 1. rewrite (store_next pre); [| lia].
    replace (Z.of_nat k + 1) with (Z.of_nat (S k)) by lia.
    rewrite (IH (S k) fuel); [| lia | rewrite length_app; cbn [length]; lia | lia].
    cbn [rng]. destruct (draw_offsets (c_lib E) m s') as [rest s''].
    cbn [fst snd]. rewrite <- app_assoc. reflexivity.
Qed.

(** [build_instances] on a size that does not wrap, with an allocator that
    finds the block and fuel for the loop. *)
Lemma build_instances_run (E : env) (fuel : nat) (n : Z) (w : world) :
  0 <= n -> 8 * n <= SizeT.SIZE_MAX ->
  malloc_ok E (mallocs w) (8 * n) = true ->
  (Z.to_nat (2 * n) < fuel)%nat ->
  let drawn := draw_offsets (c_lib E) (Z.to_nat (2 * n)) (rng w) in
  build_instances E fuel n w
  = Done (names w + 1, Some (map Some (fst drawn)))
      (advance w (snd drawn)
         (instances_calls (8 * n) (names w + 1)
            (RatData (map Some (fst drawn)))) 1 1).
Proof.
  intros Hn Hfit Hmalloc Hfuel drawn. unfold build_instances.
  assert (Hbytes : SizeT.mul (SizeT.mul n 2) SizeT.sizeof_float = 8 * n).
  { unfold SizeT.mul, SizeT.sizeof_float.
    rewrite (wrap_small (n * 2)) by lia. rewrite wrap_small by lia. lia. }
  rewrite Hbytes. unfold malloc, malloc_raw, bind at 1 2. rewrite Hmalloc.
  unfold ret at 1. unfold fresh_block, SizeT.sizeof_float.
  replace (8 * n / 4) with (2 * n)
    by (apply Z.div_unique with (r := 0); lia).
  unfold bind at 1.
  rewrite (instances_loop_fill E n Hn ltac:(lia) (Z.to_nat (2 * n)) 0 fuel []);
    [| lia | reflexivity | lia].
  reflexivity.
Qed.

Lemma offset_of_rand_range (rand_max r : Z) :
  0 < rand_max -> 0 <= r <= rand_max ->
  (-1 <= offset_of_rand rand_max r <= 1)%Q.
Proof.
  intros Hm Hr. unfold offset_of_rand.
  assert (H0 : (0 <= inject_Z r / inject_Z rand_max)%Q).
  { apply Qle_shift_div_l; [change 0%Q with (inject_Z 0); rewrite <- Zlt_Qlt; lia|].
    rewrite Qmult_0_l. change 0%Q with (inject_Z 0). rewrite <- Zle_Qle. lia. }
  assert (H1 : (inject_Z r / inject_Z rand_max <= 1)%Q).
  { apply Qle_shift_div_r; [change 0%Q with (inject_Z 0); rewrite <- Zlt_Qlt; lia|].
    rewrite Qmult_1_l. rewrite <- Zle_Qle. lia. }
  split; lra.
Qed.

Lemma offset_of_rand_max (rand_max : Z) :
  0 < rand_max -> (offset_of_rand rand_max rand_max == 1)%Q.
Proof.
  intros Hm. unfold offset_of_rand.
  assert (H : ~ (inject_Z rand_max == 0)%Q).
  { change 0%Q with (inject_Z 0). rewrite inject_Z_injective. lia. }
  field. exact H.
Qed.

Lemma draw_offsets_range (L : libc) (count : nat) (s : Z) :
  libc_ok L ->
  Forall (fun c => (-1 <= c <= 1)%Q) (fst (draw_offsets L count s)).
Proof.
  intros [Hmax Hrand]. revert s.
  induction count as [|count IH]; intros s; [constructor|].
  cbn [draw_offsets]. pose proof (Hrand s) as Hr.
  destruct (rand L s) as [r s']. specialize (IH s').
  destruct (draw_offsets L count s') as [rest s'']. cbn [fst] in *.
  constructor; [apply offset_of_rand_range; lia | exact IH].
Qed.

(** *** The geometry the program builds *)

Lemma iso_libc_ok : libc_ok iso_libc.
Proof.
  split; [cbn; lia|]. intros s. cbn.
  pose proof (Z.mod_pos_bound
                (((s * 1103515245 + 12345) mod 2 ^ 32) / 65536) 32768
                ltac:(lia)).
  lia.
Qed.

Lemma all_written {V} (l : list V) : Forall is_Some (map Some l).
Proof. induction l; constructor; eauto. Qed.




(** C4 (amended).  For every [M >= 1] whose buffer size does not wrap and
    whose allocation succeeds, [build_instances M] generates [2 M]
    components, each in the closed interval [[-1, +1]]. *)
Theorem offsets_in_closed_range (E : env) (fuel : nat) (M : Z) (w : world) :
  libc_ok (c_lib E) ->
  1 <= M ->
  8 * M <= SizeT.SIZE_MAX ->
  malloc_ok E (mallocs w) (8 * M) = true ->
  (Z.to_nat (2 * M) < fuel)%nat ->
  exists offsets vbo w',
    build_instances E fuel M w = Done (vbo, Some (map Some offsets)) w'
    /\ Z.of_nat (length offsets) = 2 * M
    /\ Forall (fun c => (-1 <= c <= 1)%Q) offsets.
Proof.
  intros HL HM Hfit Hmalloc Hfuel.
  eexists _, _, _.
  split; [apply build_instances_run; trivial; lia|].
  split; [rewrite draw_offsets_length; lia|].
  apply draw_offsets_range, HL.
Qed.

Lemma offsets_in_closed_range_witness :
  exists offsets vbo w',
    build_instances (nominal_env 0 0) 300 100
      (initial_world (nominal_env 0 0))
    = Done (vbo, Some (map Some offsets)) w'
    /\ Z.of_nat (length offsets) = 2 * 100
    /\ Forall (fun c => (-1 <= c <= 1)%Q) offsets.
Proof.
  apply (offsets_in_closed_range (nominal_env 0 0) 300 100);
    [apply iso_libc_ok | lia | rewrite size_max_value; lia | reflexivity
    | lia].
Defined.

(** C4, as stated, fails when [rand] returns [RAND_MAX]: the component is
    [+1], outside [[-1, +1)].  The example generator of the C standard does
    so from the state 2433918595. *)
Lemma offset_reaches_one :
  rand iso_libc 2433918595 = (RAND_MAX iso_libc, 2147418112)
  /\ exists c rest vbo w',
       build_instances (nominal_env 0 0) 3 1
         (reseed (initial_world (nominal_env 0 0)) 2433918595)
       = Done (vbo, Some (Some c :: rest)) w'
       /\ (c == 1)%Q /\ ~ (-1 <= c < 1)%Q.
Proof.
  split; [reflexivity|].
  eexists _, _, _, _. split; [vm_compute; reflexivity|].
  split; [reflexivity|]. intros [_ H]. revert H. unfold Qlt. cbn. lia.
Qed.

(** *** Allocation *)

(** C5 (amended).  When the allocation of [build_cone] or of
    [build_instances] ([1 <= n < 2^63]) fails, the function does not test
    the pointer: its first store goes through the null pointer, which is
    undefined behaviour; nothing is written to the standard error stream,
    no backend call is issued and [exit] is not called. *)
Theorem allocation_failure_unchecked (E : env) (fuel : nat) (n : Z)
    (w : world) :
  (forall bytes, malloc_ok E (mallocs w) bytes = false) ->
  1 <= n < 2 ^ 63 ->
  (0 < fuel)%nat ->
  (exists w', build_cone E fuel n w = Undefined w'
              /\ stderr w' = stderr w /\ calls w' = calls w)
  /\ (exists w', build_instances E fuel n w = Undefined w'
                 /\ stderr w' = stderr w /\ calls w' = calls w).
Proof.
  intros Hfail Hn Hfuel. split.
  - eexists. unfold build_cone, malloc, malloc_raw, bind at 1 2.
    rewrite Hfail. unfold ret at 1. unfold bind at 1. rewrite store_null.
    repeat split.
  - destruct fuel as [|fuel]; [lia|].
    unfold build_instances, malloc, malloc_raw, bind at 1 2.
    rewrite Hfail. unfold ret at 1. unfold bind at 1.
    cbn [instances_loop]. unfold SizeT.mul at 1.
    rewrite wrap_small by (rewrite size_max_value; lia).
    replace (0 <? 2 * n) with true by lia.
    unfold bind at 1, c_rand. cbn [rng].
    destruct (rand (c_lib E) (rng w)) as [r s'].
    unfold bind at 1. rewrite store_null.
    eexists. repeat split.
Qed.

Lemma allocation_failure_unchecked_witness :
  (exists w', build_cone out_of_memory_env 100 64
                (initial_world out_of_memory_env) = Undefined w'
              /\ stderr w' = stderr (initial_world out_of_memory_env)
              /\ calls w' = calls (initial_world out_of_memory_env))
  /\ (exists w', build_instances out_of_memory_env 100 64
                   (initial_world out_of_memory_env) = Undefined w'
                 /\ stderr w' = stderr (initial_world out_of_memory_env)
                 /\ calls w' = calls (initial_world out_of_memory_env)).
Proof.
  apply (allocation_failure_unchecked out_of_memory_env 100 64);
    [reflexivity | lia | lia].
Defined.

(** C5, as stated, fails: with an allocator out of memory the run reaches
    undefined behaviour in [build_cone]; it does not exit, and the standard
    error stream is empty. *)
Lemma out_of_memory_is_not_fatal :
  exists w', run out_of_memory_env 300 = Undefined w' /\ stderr w' = [].
Proof. eexists. split; vm_compute; reflexivity. Qed.

(** *** Bounds of the stores *)

(** C10 (amended).  For every [n >= 1] whose buffer sizes do not wrap around
    [size_t] and whose allocations succeed, every store of [build_cone] and
    of [build_instances] is inside its block (a store outside is
    [Undefined]; both functions return): the block of [build_cone] has
    [3 (n + 2)] cells, all written, the last index of the loop,
    [n * 3 + 5], being its last cell; the block of [build_instances] has
    [2 n] cells, all written. *)
Theorem stores_in_bounds (E : env) (fuel : nat) (n : Z) (w : world) :
  1 <= n ->
  12 * (n + 2) <= SizeT.SIZE_MAX ->
  malloc_ok E (mallocs w) (12 * (n + 2)) = true ->
  malloc_ok E (mallocs w) (8 * n) = true ->
  (Z.to_nat (2 * n) < fuel)%nat ->
  (exists cells w',
      build_cone E fuel n w = Done (Some cells) w'
      /\ Z.of_nat (length cells) = (n + 2) * 3
      /\ Forall is_Some cells
      /\ SizeT.add (SizeT.mul n 3) 5 = Z.of_nat (length cells) - 1)
  /\ (exists cells vbo w',
        build_instances E fuel n w = Done (vbo, Some cells) w'
        /\ Z.of_nat (length cells) = 2 * n
        /\ Forall is_Some cells).
Proof.
  intros Hn Hfit Hcone Hinst Hfuel. split.
  - eexists _, _. split; [apply build_cone_run; trivial; lia|].
    rewrite length_map, cone_vertices_length.
    split; [lia|]. split; [apply all_written|].
    unfold SizeT.add, SizeT.mul. rewrite (wrap_small (n * 3)) by lia.
    rewrite wrap_small by lia. lia.
  - eexists _, _, _. split; [apply build_instances_run; trivial; lia|].
    rewrite length_map, draw_offsets_length.
    split; [lia | apply all_written].
Qed.

Lemma stores_in_bounds_witness :
  (exists cells w',
      build_cone (nominal_env 0 0) 300 64 (initial_world (nominal_env 0 0))
      = Done (Some cells) w'
      /\ Z.of_nat (length cells) = (64 + 2) * 3
      /\ Forall is_Some cells
      /\ SizeT.add (SizeT.mul 64 3) 5 = Z.of_nat (length cells) - 1)
  /\ (exists cells vbo w',
        build_instances (nominal_env 0 0) 300 64
          (initial_world (nominal_env 0 0))
        = Done (vbo, Some cells) w'
        /\ Z.of_nat (length cells) = 2 * 64
        /\ Forall is_Some cells).
Proof.
  apply (stores_in_bounds (nominal_env 0 0) 300 64);
    [lia | rewrite size_max_value; lia | reflexivity | reflexivity | lia].
Defined.

(** C10, as stated, fails for sizes that wrap.  At [n = 2^64 - 1] the
    block of [build_cone] has 3 cells and the first store of the loop, at
    index 3, is outside it; at [n = 2^61] the block of [build_instances]
    has no cell and the loop stores at index 0. *)
Lemma stores_out_of_bounds :
  (forall fuel, exists w',
      build_cone (nominal_env 0 0) (S fuel) 18446744073709551615
        (initial_world (nominal_env 0 0)) = Undefined w')
  /\ (forall fuel, exists w',
        build_instances (nominal_env 0 0) (S fuel) 2305843009213693952
          (initial_world (nominal_env 0 0)) = Undefined w').
Proof.
  split; intros fuel; eexists; vm_compute; reflexivity.
Qed.

(** *** Shaders and programs *)

(** Run the calls at the head of a program whose results are known. *)
Ltac run :=
  cbn [bind ret gl gen_name assert exit undefined fprintf_stderr fprintf_log
       malloc malloc_chars malloc_raw poll_events window_should_close
       advance issue complain reseed polled Nat.add
       rng stderr calls names mallocs polls fst snd].



Lemma build_shader_compiled (E : env) (type : GLenum) (src : string)
    (w : world) :
  is_shader_stage type = true ->
  compile_ok E type src = true ->
  build_shader E type src w
  = Done (names w + 1)
      (advance w (rng w) (shader_calls type (names w + 1) src) 1 0).
Proof.
  intros Hstage Hok. unfold build_shader. rewrite Hstage, Hok. reflexivity.
Qed.


Lemma build_program_linked (E : env) (vert frag : Z) (w : world) :
  link_ok E vert frag = true ->
  build_program E vert frag w
  = Done (names w + 1)
      (advance w (rng w) (program_calls (names w + 1) vert frag) 1 0).
Proof. intros Hok. unfold build_program. cbn. rewrite Hok. reflexivity. Qed.




(** *** Startup *)

Lemma make_context_run (E : env) (W H : Z) (w : world) :
  context_ok E ->
  make_context E W H w = Done tt (issue w (context_calls W H)).
Proof.
  intros (Hinit & Hwin & Hver). unfold make_context.
  rewrite Hinit, Hwin. unfold version_supported in Hver.
  unfold version_digit.
  destruct (String.get 0 (gl_version E)) as [a|]; [|discriminate].
  destruct (String.get 2 (gl_version E)) as [b|]; [|discriminate].
  run. apply negb_true_iff in Hver. rewrite Hver. reflexivity.
Qed.

Lemma new_texture_run (w : world) :
  new_texture w
  = Done (names w + 1)
      (advance w (rng w) (texture_calls (names w + 1)) 1 0).
Proof. reflexivity. Qed.

Lemma make_offscreen_complete (E : env) (w : world) :
  framebuffer_status E = GL_FRAMEBUFFER_COMPLETE ->
  let fbo0 := names w + 1 in
  make_offscreen E w
  = Done (fbo0 + 1 + 1 + 1, fbo0 + 1)
      (advance w (rng w)
         (glBindFramebuffer GL_FRAMEBUFFER 0
          :: offscreen_calls fbo0 (fbo0 + 1) (fbo0 + 1 + 1)
               (fbo0 + 1 + 1 + 1)) 4 0).
Proof.
  intros Hst fbo0. unfold make_offscreen. rewrite Hst.
  change (GL_FRAMEBUFFER_COMPLETE =? GL_FRAMEBUFFER_COMPLETE) with true.
  cbv iota. run.
  unfold bind at 1. rewrite new_texture_run. run.
  unfold bind at 1. rewrite new_texture_run. run.
  unfold advance, complain, ret. subst fbo0.
  cbn [app offscreen_calls texture_calls rng stderr calls names mallocs polls
       Nat.add].
  f_equal. f_equal. lia.
Qed.

Lemma make_offscreen_incomplete (E : env) (w : world) :
  framebuffer_status E <> GL_FRAMEBUFFER_COMPLETE ->
  let fbo0 := names w + 1 in
  make_offscreen E w
  = Exited (-1)
      (complain
         (advance w (rng w)
            (offscreen_calls fbo0 (fbo0 + 1) (fbo0 + 1 + 1)
               (fbo0 + 1 + 1 + 1)) 4 0)
         {| format := framebuffer_incomplete_fmt;
            args := [ArgInt (framebuffer_status E)] |}).
Proof.
  intros Hst fbo0. unfold make_offscreen.
  replace (framebuffer_status E =? GL_FRAMEBUFFER_COMPLETE) with false
    by lia.
  cbv iota. run.
  unfold bind at 1. rewrite new_texture_run. run.
  unfold bind at 1. rewrite new_texture_run. run.
  unfold advance, complain, ret. subst fbo0.
  cbn [app offscreen_calls texture_calls rng stderr calls names mallocs polls
       Nat.add].
  f_equal. f_equal. lia.
Qed.

Lemma build_quad_run (w : world) :
  build_quad w
  = Done (names w + 1)
      (advance w (rng w) (quad_calls (names w + 1) (names w + 1 + 1)) 2 0).
Proof.
  unfold build_quad. run. unfold advance. cbn [app quad_calls].
  do 2 f_equal. lia.
Qed.

Lemma render_voronoi_run (program fbo vao res count : Z) (w : world) :
  render_voronoi program fbo vao res count w
  = Done tt (issue w (render_calls program fbo vao res count)).
Proof. reflexivity. Qed.

Lemma concat_replicate_comm {A} (k : nat) (l : list A) :
  concat (replicate k l) ++ l = l ++ concat (replicate k l).
Proof.
  induction k as [|k IH]; cbn; [rewrite app_nil_r; reflexivity|].
  rewrite <- app_assoc, IH. reflexivity.
Qed.

(** The loop runs one frame for every poll at which the window does not
    ask to close, and leaves at the first at which it does. *)
Lemma frame_loop_run (E : env) (k : nat) :
  forall (fuel : nat) (w : world),
    should_close E (k + polls w)%nat = true ->
    (forall j, (j < k)%nat -> should_close E (j + polls w)%nat = false) ->
    (k < fuel)%nat ->
    frame_loop E fuel w
    = Done tt (polled (issue w (concat (replicate k frame_calls))) k).
Proof.
  induction k as [|k IH]; intros fuel w Hclose Hopen Hfuel;
    (destruct fuel as [|fuel]; [lia|]); cbn [frame_loop]; run.
  - cbn [Nat.add] in Hclose. rewrite Hclose. destruct w; reflexivity.
  - pose proof (Hopen 0%nat ltac:(lia)) as Hfirst.
    cbn [Nat.add] in Hfirst. rewrite Hfirst. unfold frame. run.
    rewrite IH; [| | | lia].
    + unfold polled, issue.
      cbn [rng stderr calls names mallocs polls]. f_equal. f_equal.
      * change (glfwPollEvents :: glfwSwapBuffers
                :: glDrawArrays GL_TRIANGLE_FAN 0 4 :: glClear true true
                :: calls w) with (frame_calls ++ calls w).
        rewrite (app_assoc _ frame_calls), concat_replicate_comm.
        cbn [replicate concat]. rewrite <- app_assoc. reflexivity.
      * lia.
    + cbn [polls].
      replace (k + S (polls w))%nat with (S k + polls w)%nat by lia.
      exact Hclose.
    + intros j Hj. cbn [polls].
      replace (j + S (polls w))%nat with (S j + polls w)%nat by lia.
      apply Hopen. lia.
Qed.

(** Run the function at the head of a program with the lemma [H]. *)
Ltac call H := unfold bind at 1; rewrite H; run.

(** The first part of [main] in an environment where the context, the
    allocations and the Voronoi program go through. *)
Lemma voronoi_parts_run (E : env) (fuel : nat) :
  context_ok E -> memory_ok E -> voronoi_program_ok E ->
  (201 < fuel)%nat ->
  voronoi_parts E fuel (initial_world E)
  = Done (1, 6, Some (map Some (fst (main_draws (c_lib E)))))
      (end_world (c_lib E) (parts_calls (c_lib E)) 6 0).
Proof.
  intros Hctx Hmem (Hv & Hf & Hlink) Hfuel. unfold voronoi_parts.
  call make_context_run; [| assumption].
  call build_cone_run;
    [| unfold cone_res; lia | rewrite size_max_value; unfold cone_res; lia
     | apply Hmem | unfold cone_res; lia].
  call build_instances_run;
    [| unfold point_count; lia
     | rewrite size_max_value; unfold point_count; lia
     | apply Hmem | unfold point_count; lia].
  call build_shader_compiled; [| reflexivity | assumption].
  call build_shader_compiled; [| reflexivity | assumption].
  call build_program_linked; [| apply Hlink].
  reflexivity.
Qed.

(** [main] up to the completeness check. *)
Lemma main_incomplete (E : env) (fuel : nat) :
  context_ok E -> memory_ok E -> voronoi_program_ok E ->
  (201 < fuel)%nat ->
  framebuffer_status E <> GL_FRAMEBUFFER_COMPLETE ->
  run E fuel
  = Exited (-1)
      (complain (end_world (c_lib E) (target_calls (c_lib E)) 10 0)
         {| format := framebuffer_incomplete_fmt;
            args := [ArgInt (framebuffer_status E)] |}).
Proof.
  intros Hctx Hmem Hvor Hfuel Hst. unfold run, main.
  call voronoi_parts_run; trivial.
  call make_offscreen_incomplete; trivial.
Qed.

Lemma target_complete (E : env) (fuel : nat) :
  context_ok E -> memory_ok E -> voronoi_program_ok E ->
  (201 < fuel)%nat ->
  framebuffer_status E = GL_FRAMEBUFFER_COMPLETE ->
  (voronoi_parts E fuel ;; make_offscreen E) (initial_world E)
  = Done (10, 8)
      (end_world (c_lib E)
         (glBindFramebuffer GL_FRAMEBUFFER 0 :: target_calls (c_lib E)) 10 0).
Proof.
  intros Hctx Hmem Hvor Hfuel Hst.
  call voronoi_parts_run; trivial.
  rewrite make_offscreen_complete by assumption. reflexivity.
Qed.

(** A whole run in an environment where startup goes through and the
    window asks to close at the head of frame [k]. *)
Lemma main_run (E : env) (fuel k : nat) :
  context_ok E -> memory_ok E -> voronoi_program_ok E ->
  framebuffer_status E = GL_FRAMEBUFFER_COMPLETE ->
  blit_program_ok E ->
  closes_at E k ->
  (201 < fuel)%nat -> (k < fuel)%nat ->
  run E fuel
  = Done 0
      (end_world (c_lib E)
         (concat (replicate k frame_calls) ++ startup_calls (c_lib E)) 15 k).
Proof.
  intros Hctx Hmem Hvor Hst (Hqv & Hqf & Hlink) (Hclose & Hopen) Hfuel Hk.
  unfold run, main.
  call voronoi_parts_run; trivial.
  call make_offscreen_complete; trivial.
  unfold blit_parts.
  unfold bind at 1. unfold bind at 1.
  rewrite build_shader_compiled; [| reflexivity | assumption]. run.
  call build_shader_compiled; [| reflexivity | assumption].
  call build_program_linked; [| apply Hlink].
  call build_quad_run.
  call render_voronoi_run.
  unfold bind at 1.
  rewrite (frame_loop_run E k); [| | | assumption].
  - run. unfold end_world, polled, issue.
    cbn [rng stderr calls names mallocs polls]. f_equal. f_equal.
    rewrite Nat.add_0_r. reflexivity.
  - run. rewrite Nat.add_0_r. exact Hclose.
  - intros j Hj. run. rewrite Nat.add_0_r. apply Hopen, Hj.
Qed.

(** *** The offscreen target *)

Lemma gl_run_app (l1 l2 : list gl_call) :
  gl_run (l1 ++ l2) = fold_left (fun st c => gl_step c st) l2 (gl_run l1).
Proof. unfold gl_run. apply fold_left_app. Qed.

(** The attachments of framebuffer 10 after the first part of [main]. *)
Lemma target_attachments (L : libc) :
  let st := gl_run (rev (glBindFramebuffer GL_FRAMEBUFFER 0
                         :: target_calls L)) in
  color_attachment st !! 10 = Some 8
  /\ depth_attachment st !! 10 = Some 9
  /\ images st !! 8
     = Some {| internal_format := GL_RGB; image_width := width;
               image_height := height; pixel_type := GL_UNSIGNED_BYTE |}
  /\ images st !! 9
     = Some {| internal_format := GL_DEPTH_COMPONENT; image_width := width;
               image_height := height; pixel_type := GL_FLOAT |}.
Proof.
  unfold target_calls, parts_calls.
  generalize (main_offsets L), main_cone. intros offsets cone.
  vm_compute. repeat split.
Qed.

Lemma nominal_context_ok (frames : nat) (entropy : Z) :
  context_ok (nominal_env frames entropy).
Proof. repeat split. Qed.

Lemma incomplete_context_ok (status : Z) : context_ok (incomplete_env status).
Proof. repeat split. Qed.

(** C7.  In a run that reaches the completeness check (the context, the
    allocations and the Voronoi program went through): if the reported
    status is not [GL_FRAMEBUFFER_COMPLETE], the program writes one
    diagnostic that carries the status and calls [exit(-1)], a status that
    is not zero; if it is, startup goes on past the check, with a colour
    texture and a depth texture of [width] by [height] attached to the
    offscreen framebuffer. *)
Theorem incomplete_target_is_fatal (E : env) (fuel : nat) :
  context_ok E -> memory_ok E -> voronoi_program_ok E ->
  (201 < fuel)%nat ->
  (framebuffer_status E <> GL_FRAMEBUFFER_COMPLETE ->
   exists w,
     run E fuel = Exited (-1) w
     /\ stderr_log w = [ {| format := framebuffer_incomplete_fmt;
                            args := [ArgInt (framebuffer_status E)] |} ]
     /\ process_status (-1) <> 0)
  /\ (framebuffer_status E = GL_FRAMEBUFFER_COMPLETE ->
      exists fbo tex depth w,
        (voronoi_parts E fuel ;; make_offscreen E) (initial_world E)
        = Done (fbo, tex) w
        /\ stderr w = []
        /\ color_attachment (gl_run (gl_log w)) !! fbo = Some tex
        /\ depth_attachment (gl_run (gl_log w)) !! fbo = Some depth
        /\ images (gl_run (gl_log w)) !! tex
           = Some {| internal_format := GL_RGB; image_width := width;
                     image_height := height;
                     pixel_type := GL_UNSIGNED_BYTE |}
        /\ images (gl_run (gl_log w)) !! depth
           = Some {| internal_format := GL_DEPTH_COMPONENT;
                     image_width := width; image_height := height;
                     pixel_type := GL_FLOAT |}).
Proof.
  intros Hctx Hmem Hvor Hfuel. split; intros Hst.
  - eexists. split; [apply main_incomplete; assumption|].
    split; [reflexivity | discriminate].
  - exists 10, 8, 9. eexists.
    split; [apply target_complete; assumption|].
    split; [reflexivity|].
    unfold gl_log, end_world. cbn [calls].
    apply (target_attachments (c_lib E)).
Qed.

Lemma incomplete_target_is_fatal_witness :
  (exists w,
     run (incomplete_env 36054) 300 = Exited (-1) w
     /\ stderr_log w = [ {| format := framebuffer_incomplete_fmt;
                            args := [ArgInt 36054] |} ]
     /\ process_status (-1) <> 0)
  /\ (exists fbo tex depth w,
        (voronoi_parts (nominal_env 0 0) 300 ;;
         make_offscreen (nominal_env 0 0)) (initial_world (nominal_env 0 0))
        = Done (fbo, tex) w
        /\ stderr w = []
        /\ color_attachment (gl_run (gl_log w)) !! fbo = Some tex
        /\ depth_attachment (gl_run (gl_log w)) !! fbo = Some depth
        /\ images (gl_run (gl_log w)) !! tex
           = Some {| internal_format := GL_RGB; image_width := width;
                     image_height := height;
                     pixel_type := GL_UNSIGNED_BYTE |}
        /\ images (gl_run (gl_log w)) !! depth
           = Some {| internal_format := GL_DEPTH_COMPONENT;
                     image_width := width; image_height := height;
                     pixel_type := GL_FLOAT |}).
Proof.
  split.
  - apply (incomplete_target_is_fatal (incomplete_env 36054) 300);
      [apply incomplete_context_ok | intros k b; reflexivity
      | repeat split | lia | discriminate].
  - apply (incomplete_target_is_fatal (nominal_env 0 0) 300);
      [apply nominal_context_ok | intros k b; reflexivity
      | repeat split | lia | reflexivity].
Defined.

(** *** The two passes *)

Lemma rev_concat_replicate {A} (k : nat) (l : list A) :
  rev (concat (replicate k l)) = concat (replicate k (rev l)).
Proof.
  induction k as [|k IH]; [reflexivity|]. cbn [replicate concat].
  rewrite rev_app_distr, IH. apply concat_replicate_comm.
Qed.

Lemma frame_step (st : gl_state) :
  fold_left (fun st c => gl_step c st) (rev frame_calls) st
  = observed_more st (frame_observations st).
Proof. destruct st; reflexivity. Qed.

Lemma frames_step (k : nat) (st : gl_state) :
  fold_left (fun st c => gl_step c st)
    (concat (replicate k (rev frame_calls))) st
  = observed_more st (concat (replicate k (frame_observations st))).
Proof.
  revert st. induction k as [|k IH]; intros st.
  - destruct st; reflexivity.
  - cbn [replicate concat]. rewrite fold_left_app, frame_step, IH.
    unfold observed_more, frame_observations, attrib_data.
    cbn [array_buffer vertex_array texture_2d framebuffer program_in_use
         depth_test clear_color clear_depth buffers attribs images
         color_attachment depth_attachment observed].
    f_equal. rewrite app_assoc. f_equal.
    apply (concat_replicate_comm k [_; _; _]).
Qed.

(** The record of a whole run of [k] frames. *)
Lemma run_observations (L : libc) (k : nat) :
  let st := gl_run (rev (concat (replicate k frame_calls)
                         ++ startup_calls L)) in
  rev (observed st)
  = spec_offscreen_pass 10 6 main_cone (main_offsets L)
    ++ concat (replicate k (spec_present_pass 13 8))
  /\ color_attachment st !! 10 = Some 8.
Proof.
  cbv zeta. rewrite rev_app_distr, gl_run_app, rev_concat_replicate.
  rewrite frames_step.
  unfold startup_calls, target_calls, parts_calls.
  generalize (main_offsets L), main_cone. intros offsets cone.
  set (st0 := gl_run _).
  assert (Hst0 : rev (observed st0) = spec_offscreen_pass 10 6 cone offsets
                 /\ rev (frame_observations st0) = spec_present_pass 13 8
                 /\ color_attachment st0 !! 10 = Some 8).
  { subst st0. vm_compute. repeat split. }
  destruct Hst0 as (Hoff & Hpresent & Hatt).
  split; [| exact Hatt].
  cbn [observed observed_more].
  rewrite rev_app_distr, rev_concat_replicate, Hoff, Hpresent. reflexivity.
Qed.

(** C8.  In a run whose startup goes through and whose window asks to
    close at the head of frame [k]: [main] returns 0; the record of the
    backend is one offscreen pass (the offscreen target cleared to
    [(1,1,0,1)] and depth 1, then one instanced triangle-fan draw of
    [cone_res + 2] vertices and [point_count] instances with the depth test
    on) followed by [k] present passes (the default framebuffer cleared to
    [(0,0,0,1)], one triangle-fan draw of 4 vertices that samples the
    colour attachment of the offscreen target, one buffer swap), and
    nothing else. *)
Theorem passes_of_a_run (E : env) (fuel k : nat) :
  context_ok E -> memory_ok E -> voronoi_program_ok E ->
  framebuffer_status E = GL_FRAMEBUFFER_COMPLETE ->
  blit_program_ok E ->
  closes_at E k ->
  (201 < fuel)%nat -> (k < fuel)%nat ->
  exists w fbo prog blit tex,
    run E fuel = Done 0 w
    /\ stderr w = []
    /\ observations (gl_log w)
       = spec_offscreen_pass fbo prog main_cone (main_offsets (c_lib E))
         ++ concat (replicate k (spec_present_pass blit tex))
    /\ color_attachment (gl_run (gl_log w)) !! fbo = Some tex.
Proof.
  intros Hctx Hmem Hvor Hst Hblit Hclose Hfuel Hk.
  eexists. exists 10, 6, 13, 8.
  split; [apply (main_run E fuel k); assumption|].
  split; [reflexivity|].
  unfold observations, gl_log, end_world. cbn [calls].
  apply (run_observations (c_lib E) k).
Qed.

Lemma passes_of_a_run_witness :
  exists w fbo prog blit tex,
    run (nominal_env 3 0) 300 = Done 0 w
    /\ stderr w = []
    /\ observations (gl_log w)
       = spec_offscreen_pass fbo prog main_cone (main_offsets iso_libc)
         ++ concat (replicate 3 (spec_present_pass blit tex))
    /\ color_attachment (gl_run (gl_log w)) !! fbo = Some tex.
Proof.
  apply (passes_of_a_run (nominal_env 3 0) 300 3);
    [apply nominal_context_ok | intros j b; reflexivity | repeat split
    | reflexivity | repeat split
    | split; [reflexivity | intros j Hj; apply Nat.leb_gt; lia]
    | lia | lia].
Defined.

(** *** The generator *)

(** C9 (amended).  The program never seeds the generator: it draws from
    the state the C library starts in, that of [srand(1)].  In every run
    that gets as far as the offsets, the offsets are the first
    [2 * point_count] draws from that state; two runs with the same C
    library upload the same offsets, whatever else their environments
    answer, the system entropy included. *)
Theorem offsets_are_reproducible (E E' : env) (fuel fuel' : nat) :
  c_lib E = c_lib E' ->
  context_ok E -> memory_ok E -> voronoi_program_ok E ->
  context_ok E' -> memory_ok E' -> voronoi_program_ok E' ->
  (201 < fuel)%nat -> (201 < fuel')%nat ->
  offsets_of_run E fuel
  = Some (Some (map Some
       (fst (draw_offsets (c_lib E) (Z.to_nat (2 * point_count))
               (srand (c_lib E) 1)))))
  /\ offsets_of_run E' fuel' = offsets_of_run E fuel.
Proof.
  intros HL Hc Hm Hv Hc' Hm' Hv' Hf Hf'. unfold offsets_of_run.
  rewrite !voronoi_parts_run by assumption. rewrite HL. split; reflexivity.
Qed.

Lemma offsets_are_reproducible_witness :
  offsets_of_run (nominal_env 0 0) 300
  = Some (Some (map Some
       (fst (draw_offsets iso_libc (Z.to_nat (2 * point_count))
               (srand iso_libc 1)))))
  /\ offsets_of_run (nominal_env 7 123456789) 400
     = offsets_of_run (nominal_env 0 0) 300.
Proof.
  apply (offsets_are_reproducible (nominal_env 0 0)
           (nominal_env 7 123456789) 300 400);
    [reflexivity | apply nominal_context_ok | intros k b; reflexivity
    | repeat split | apply nominal_context_ok | intros k b; reflexivity
    | repeat split | lia | lia].
Defined.

(** C9, as stated, fails: no two runs of the program on the example
    generator of the C standard differ in their offsets, whatever entropy
    the system offers to each. *)
Lemma entropy_is_not_read :
  ~ exists e1 e2,
      offsets_of_run (nominal_env 0 e1) 300
      <> offsets_of_run (nominal_env 0 e2) 300.
Proof.
  intros (e1 & e2 & Hdiff). apply Hdiff. vm_compute. reflexivity.
Qed.

(** *** Nearest seeds *)

Section DepthTest.

Import Shader Raster.

Variable p : vec2.

Lemma Qlt_bool_iff (a b : Q) : Qlt_bool a b = true <-> (a < b)%Q.
Proof.
  unfold Qlt_bool. rewrite negb_true_iff. split.
  - intros H. apply Qnot_le_lt. intros Hle.
    apply Qle_bool_iff in Hle. congruence.
  - intros H. destruct (Qle_bool b a) eqn:Hb; [|reflexivity].
    apply Qle_bool_iff in Hb. exfalso. revert Hb. apply Qlt_not_le, H.
Qed.

(** One more instance keeps the invariant. *)
Lemma draw_instance_invariant (done : list vec2) (o : vec2) (s : sample) :
  depth_invariant done p s ->
  depth_invariant (done ++ [o]) p
    (draw_instance p (Z.of_nat (length done)) o s).
Proof.
  intros Hinv. unfold draw_instance.
  destruct (Qle_bool (sqdist p o) 1) eqn:Hcone.
  - apply Qle_bool_iff in Hcone.
    destruct (Qlt_bool (sqdist p o) (depth2 s)) eqn:Htest.
    + (* the fragment passes: the new instance is strictly nearer *)
      apply Qlt_bool_iff in Htest. right. exists (length done), o.
      assert (Hall : forall j o', done !! j = Some o' ->
                                  (sqdist p o < sqdist p o')%Q).
      { destruct Hinv as [[-> Hfar] | (k & ok & Hk & -> & Hlt & Hmin & _)].
        - intros j o' Hj. specialize (Hfar j o' Hj). cbn in Htest. lra.
        - intros j o' Hj. specialize (Hmin j o' Hj). cbn in Htest. lra. }
      assert (Hone : (sqdist p o < 1)%Q).
      { destruct Hinv as [[-> _] | (k & ok & _ & -> & Hlt & _)];
          cbn in Htest; lra. }
      split; [apply list_lookup_middle; reflexivity|].
      split; [reflexivity|]. split; [exact Hone|]. split.
      * intros j o' Hj. apply lookup_snoc_Some in Hj.
        destruct Hj as [[_ Hj] | [_ <-]]; [|lra].
        apply Qlt_le_weak, (Hall j o' Hj).
      * intros j o' Hlt Hj. apply lookup_snoc_Some in Hj.
        destruct Hj as [[_ Hj] | [-> _]]; [|lia]. apply (Hall j o' Hj).
    + (* the fragment fails the test *)
      assert (Hge : (depth2 s <= sqdist p o)%Q).
      { apply Qnot_lt_le. intros Hlt. apply Qlt_bool_iff in Hlt. congruence. }
      destruct Hinv as [[-> Hfar] | (k & ok & Hk & -> & Hlt & Hmin & Hfirst)].
      * left. split; [reflexivity|]. intros j o' Hj.
        apply lookup_snoc_Some in Hj.
        destruct Hj as [[_ Hj] | [_ <-]]; [apply (Hfar j o' Hj) | exact Hge].
      * right. exists k, ok. split; [apply lookup_app_l_Some, Hk|].
        split; [reflexivity|]. split; [exact Hlt|]. split.
        -- intros j o' Hj. apply lookup_snoc_Some in Hj.
           destruct Hj as [[_ Hj] | [_ <-]];
             [apply (Hmin j o' Hj) | exact Hge].
        -- intros j o' Hjk Hj. apply lookup_snoc_Some in Hj.
           destruct Hj as [[_ Hj] | [-> _]]; [apply (Hfirst j o' Hjk Hj)|].
           apply lookup_lt_Some in Hk. lia.
  - (* the cone does not reach the pixel *)
    assert (Hfar : (1 < sqdist p o)%Q).
    { apply Qnot_le_lt. intros Hle. apply Qle_bool_iff in Hle. congruence. }
    destruct Hinv as [[-> Hall] | (k & ok & Hk & -> & Hlt & Hmin & Hfirst)].
    + left. split; [reflexivity|]. intros j o' Hj.
      apply lookup_snoc_Some in Hj.
      destruct Hj as [[_ Hj] | [_ <-]]; [apply (Hall j o' Hj) | lra].
    + right. exists k, ok. split; [apply lookup_app_l_Some, Hk|].
      split; [reflexivity|]. split; [exact Hlt|]. split.
      * intros j o' Hj. apply lookup_snoc_Some in Hj.
        destruct Hj as [[_ Hj] | [_ <-]]; [apply (Hmin j o' Hj) | lra].
      * intros j o' Hjk Hj. apply lookup_snoc_Some in Hj.
        destruct Hj as [[_ Hj] | [-> _]]; [apply (Hfirst j o' Hjk Hj)|].
        apply lookup_lt_Some in Hk. lia.
Qed.

Lemma draw_instances_invariant (rest : list vec2) :
  forall (done : list vec2) (s : sample),
    depth_invariant done p s ->
    depth_invariant (done ++ rest) p
      (draw_instances p (Z.of_nat (length done)) rest s).
Proof.
  induction rest as [|o rest IH]; intros done s Hinv.
  - rewrite app_nil_r. exact Hinv.
  - cbn [draw_instances].
    replace (Z.of_nat (length done) + 1) with (Z.of_nat (length (done ++ [o])))
      by (rewrite length_app; cbn [length]; lia).
    replace (done ++ o :: rest) with ((done ++ [o]) ++ rest)
      by (rewrite <- app_assoc; reflexivity).
    apply IH, draw_instance_invariant, Hinv.
Qed.

Lemma render_invariant (offsets : list vec2) :
  depth_invariant offsets p (draw_instances p 0 offsets cleared).
Proof.
  apply (draw_instances_invariant offsets [] cleared).
  left. split; [reflexivity|]. intros j o Hj. discriminate.
Qed.

End DepthTest.






(** The second and third scenarios of the specification, at pixels the
    cones reach, and a tie, which the strict test gives to the lower
    index. *)
Example two_seeds_halves :
  let offsets := [(-1 # 2, 0); (1 # 2, 0)]%Q in
  Raster.owner offsets (Raster.pixel_center width height (100, 200)) = 0
  /\ Raster.owner offsets (Raster.pixel_center width height (300, 200)) = 1
  /\ Raster.owner offsets (0, 0)%Q = 0.
Proof. repeat split. Qed.

Example four_seeds_quadrants :
  let offsets :=
    [(-1 # 2, -1 # 2); (1 # 2, -1 # 2); (-1 # 2, 1 # 2); (1 # 2, 1 # 2)]%Q in
  map (fun ij => Raster.owner offsets (Raster.pixel_center width height ij))
    [(0, 0); (399, 0); (0, 399); (399, 399); (199, 199); (200, 200)]
  = [0; 1; 2; 3; 0; 3].
Proof. reflexivity. Qed.

(** ** Further properties of the program *)

(** *** The context *)

(** X1.  When [glfwInit] fails, [make_context] writes the diagnostic
    "Error: Failed to initialize GLFW!" and calls [exit(-1)]; it has issued
    no other call: no hint is set and no window is asked for. *)
Theorem glfw_failure_is_fatal (E : env) (W H : Z) (w : world) :
  glfw_init_ok E = false ->
  make_context E W H w
  = Exited (-1)
      (complain (issue w [glfwInit])
         {| format := glfw_failed_fmt; args := [] |}).
Proof.
  intros Hinit. unfold make_context. rewrite Hinit. reflexivity.
Qed.

Lemma glfw_failure_is_fatal_witness :
  make_context (context_env false true "3.3.0") 400 400
    (initial_world (context_env false true "3.3.0"))
  = Exited (-1)
      (complain (issue (initial_world (context_env false true "3.3.0"))
                   [glfwInit])
         {| format := glfw_failed_fmt; args := [] |}).
Proof.
  apply (glfw_failure_is_fatal (context_env false true "3.3.0") 400 400).
  reflexivity.
Defined.

(** X2.  When the window cannot be created, [make_context] writes the
    diagnostic "Error:  Failed to create window" and calls [exit(-1)],
    after the four hints (version 3.3, forward compatible, core profile)
    and before any context is made current or any version is read: the
    outcome does not depend on the version string. *)
Theorem window_failure_is_fatal (E : env) (W H : Z) (w : world) :
  glfw_init_ok E = true ->
  window_ok E = false ->
  make_context E W H w
  = Exited (-1)
      (complain
         (issue w
            [ glfwCreateWindow W H "swingline";
              glfwWindowHint GLFW_OPENGL_PROFILE GLFW_OPENGL_CORE_PROFILE;
              glfwWindowHint GLFW_OPENGL_FORWARD_COMPAT GL_TRUE;
              glfwWindowHint GLFW_CONTEXT_VERSION_MINOR 3;
              glfwWindowHint GLFW_CONTEXT_VERSION_MAJOR 3;
              glfwInit ])
         {| format := window_failed_fmt; args := [] |}).
Proof.
  intros Hinit Hwin. unfold make_context. rewrite Hinit, Hwin. reflexivity.
Qed.

Lemma window_failure_is_fatal_witness :
  make_context (context_env true false EmptyString) 400 400
    (initial_world (context_env true false EmptyString))
  = Exited (-1)
      (complain
         (issue (initial_world (context_env true false EmptyString))
            [ glfwCreateWindow 400 400 "swingline";
              glfwWindowHint GLFW_OPENGL_PROFILE GLFW_OPENGL_CORE_PROFILE;
              glfwWindowHint GLFW_OPENGL_FORWARD_COMPAT GL_TRUE;
              glfwWindowHint GLFW_CONTEXT_VERSION_MINOR 3;
              glfwWindowHint GLFW_CONTEXT_VERSION_MAJOR 3;
              glfwInit ])
         {| format := window_failed_fmt; args := [] |}).
Proof.
  apply (window_failure_is_fatal (context_env true false EmptyString)
           400 400); reflexivity.
Defined.

Lemma digit_char_code (d : Z) :
  0 <= d <= 9 ->
  SizeT.wrap (Z.of_nat (nat_of_ascii (digit_char d)) - 48) = d.
Proof.
  intros Hd. unfold digit_char.
  rewrite nat_ascii_embedding by lia.
  unfold SizeT.wrap. rewrite Z.mod_small; [lia|].
  change SizeT.modulus with 18446744073709551616. lia.
Qed.

(** X3.  With a window, for a version string that starts with a digit
    [a], any character, and a digit [b]: [make_context] returns exactly
    when [10 a + b >= 33]; otherwise it writes the diagnostic "OpenGL
    context is too old" with [a] and [b] as major and minor and calls
    [exit(-1)].  Only these two characters are read. *)
Theorem version_check (E : env) (W H : Z) (w : world) (a b : Z)
    (sep : ascii) (rest : string) :
  glfw_init_ok E = true ->
  window_ok E = true ->
  0 <= a <= 9 -> 0 <= b <= 9 ->
  gl_version E = String (digit_char a) (String sep (String (digit_char b) rest)) ->
  make_context E W H w
  = if 33 <=? 10 * a + b
    then Done tt (issue w (context_calls W H))
    else Exited (-1)
           (complain (issue w (context_calls W H))
              {| format := context_old_fmt;
                 args := [ArgInt a; ArgInt b] |}).
Proof.
  intros Hinit Hwin Ha Hb Hver. unfold make_context.
  rewrite Hinit, Hwin, Hver. unfold version_digit.
  cbn [String.get]. run.
  rewrite !digit_char_code by assumption.
  unfold SizeT.add, SizeT.mul.
  assert (Hw : forall z, 0 <= z <= 100 -> SizeT.wrap z = z).
  { intros z Hz. unfold SizeT.wrap. rewrite Z.mod_small; [lia|].
    change SizeT.modulus with 18446744073709551616. lia. }
  rewrite (Hw (a * 10)) by lia. rewrite Hw by lia.
  destruct (33 <=? 10 * a + b) eqn:Hle.
  - replace (a * 10 + b <? 33) with false by lia. reflexivity.
  - replace (a * 10 + b <? 33) with true by lia. reflexivity.
Qed.

Lemma version_check_witness :
  make_context (context_env true true "3.2.1") 400 400
    (initial_world (context_env true true "3.2.1"))
  = if 33 <=? 10 * 3 + 2
    then Done tt
           (issue (initial_world (context_env true true "3.2.1"))
              (context_calls 400 400))
    else Exited (-1)
           (complain
              (issue (initial_world (context_env true true "3.2.1"))
                 (context_calls 400 400))
              {| format := context_old_fmt;
                 args := [ArgInt 3; ArgInt 2] |}).
Proof.
  apply (version_check (context_env true true "3.2.1") 400 400 _ 3 2
           "."%char ".1"%string);
    [reflexivity | reflexivity | lia | lia | reflexivity].
Defined.

(** X4.  With a window, for a version string of fewer than two
    characters, [make_context] reads [ver[2]] past the terminator of the
    string: undefined behaviour, with no diagnostic. *)
Theorem short_version_is_undefined (E : env) (W H : Z) (w : world) :
  glfw_init_ok E = true ->
  window_ok E = true ->
  (String.length (gl_version E) < 2)%nat ->
  make_context E W H w = Undefined (issue w (context_calls W H)).
Proof.
  intros Hinit Hwin Hlen. unfold make_context. rewrite Hinit, Hwin.
  unfold version_digit.
  destruct (gl_version E) as [|c [|c' s]]; cbn in Hlen; try lia;
    reflexivity.
Qed.

Lemma short_version_is_undefined_witness :
  make_context (context_env true true "4") 400 400
    (initial_world (context_env true true "4"))
  = Undefined (issue (initial_world (context_env true true "4"))
                 (context_calls 400 400)).
Proof.
  apply (short_version_is_undefined (context_env true true "4") 400 400);
    [reflexivity | reflexivity | cbn; lia].
Defined.

(** *** How a run can end *)

Section ExitsCleanly.

Variable E : env.

Lemma clean_bind {A B} (P : B -> Prop) (m : prog A) (k : A -> prog B) :
  exits_cleanly anything m -> (forall a, exits_cleanly P (k a)) ->
  exits_cleanly P (bind m k).
Proof.
  intros Hm Hk w. unfold bind. specialize (Hm w).
  destruct (m w) as [a w1|c w1|w1|w1|]; trivial.
  destruct Hm as [_ Hm]. specialize (Hk a w1).
  destruct (k a w1) as [b w2|c w2|w2|w2|]; trivial.
  - destruct Hk as [Hb Hk]. split; [trivial | congruence].
  - destruct Hk as [Hc [d Hd]]. split; [trivial|]. exists d. congruence.
  - congruence.
Qed.

Lemma clean_weaken {A} (P : A -> Prop) (m : prog A) :
  exits_cleanly P m -> exits_cleanly anything m.
Proof.
  intros Hm w. specialize (Hm w). destruct (m w); trivial.
  split; [exact I | apply Hm].
Qed.

Lemma clean_ret {A} (P : A -> Prop) (a : A) : P a -> exits_cleanly P (ret a).
Proof. intros Ha w. cbn. split; [exact Ha | reflexivity]. Qed.

Lemma clean_gl (c : gl_call) : exits_cleanly anything (gl c).
Proof. intros w. cbn. split; [exact I | reflexivity]. Qed.

Lemma clean_gen_name : exits_cleanly anything gen_name.
Proof. intros w. cbn. split; [exact I | reflexivity]. Qed.

Lemma clean_undefined {A} (P : A -> Prop) : exits_cleanly P undefined.
Proof. intros w. reflexivity. Qed.

Lemma clean_malloc {V} (bytes : Z) : exits_cleanly anything (@malloc E V bytes).
Proof. intros w. cbn. split; [exact I | reflexivity]. Qed.

Lemma clean_malloc_chars (bytes : Z) :
  exits_cleanly anything (malloc_chars E bytes).
Proof. intros w. cbn. split; [exact I | reflexivity]. Qed.

Lemma clean_rand : exits_cleanly anything (c_rand E).
Proof.
  intros w. unfold c_rand. destruct (rand (c_lib E) (rng w)).
  split; [exact I | reflexivity].
Qed.

Lemma clean_poll : exits_cleanly anything poll_events.
Proof. intros w. cbn. split; [exact I | reflexivity]. Qed.

Lemma clean_should_close : exits_cleanly anything (window_should_close E).
Proof. intros w. cbn. split; [exact I | reflexivity]. Qed.

Lemma clean_store {V} (b : block V) (i : Z) (v : V) :
  exits_cleanly anything (store b i v).
Proof.
  intros w. unfold store. destruct b as [cells|]; [|reflexivity].
  destruct ((0 <=? i) && (i <? Z.of_nat (length cells)));
    [split; [exact I | reflexivity] | reflexivity].
Qed.

(** A diagnostic followed by [exit(-1)]. *)
Lemma clean_fail {A} (P : A -> Prop) (fmt : string) (a : list fprintf_arg) :
  exits_cleanly P (fprintf_stderr fmt a ;; exit (-1)).
Proof. intros w. split; [reflexivity|]. eexists. reflexivity. Qed.

Lemma clean_fail_log {A} (P : A -> Prop) (fmt : string)
    (buf : option (option string)) :
  exits_cleanly P (fprintf_log fmt buf ;; exit (-1)).
Proof.
  intros w. destruct buf as [[text|]|]; try reflexivity.
  split; [reflexivity|]. eexists. reflexivity.
Qed.

Lemma clean_get_info_log (log : string) (n : Z)
    (buf : option (option string)) :
  exits_cleanly anything (get_info_log log n buf).
Proof.
  intros w. unfold get_info_log.
  destruct (n <=? 0); [split; [exact I | reflexivity]|].
  destruct buf; [split; [exact I | reflexivity] | reflexivity].
Qed.

(** Decompose a program into the pieces above, following its syntax. *)
Ltac clean_step :=
  lazymatch goal with
  | |- exits_cleanly _ (bind (fprintf_stderr _ _) (fun _ => exit _)) =>
      apply clean_fail
  | |- exits_cleanly _ (bind (fprintf_log _ _) (fun _ => exit _)) =>
      apply clean_fail_log
  | |- exits_cleanly _ (bind _ _) => apply clean_bind; [| intros ?]
  | |- exits_cleanly _ (gl _) => apply clean_gl
  | |- exits_cleanly _ gen_name => apply clean_gen_name
  | |- exits_cleanly _ undefined => apply clean_undefined
  | |- exits_cleanly _ (malloc _ _) => apply clean_malloc
  | |- exits_cleanly _ (malloc_chars _ _) => apply clean_malloc_chars
  | |- exits_cleanly _ (c_rand _) => apply clean_rand
  | |- exits_cleanly _ poll_events => apply clean_poll
  | |- exits_cleanly _ (window_should_close _) => apply clean_should_close
  | |- exits_cleanly _ (store _ _ _) => apply clean_store
  | |- exits_cleanly _ (get_info_log _ _ _) => apply clean_get_info_log
  | |- exits_cleanly _ (ret _) => apply clean_ret; exact I
  | |- exits_cleanly _ (if ?b then _ else _) => destruct b
  end.

Ltac clean := repeat clean_step.

Lemma clean_cone_loop (fuel : nat) (n : Z) :
  forall (i : Z) (buf : block R),
    exits_cleanly anything (cone_loop fuel n i buf).
Proof.
  induction fuel as [|fuel IH]; intros i buf; [intros w; exact I|].
  cbn [cone_loop]. clean. apply IH.
Qed.

Lemma clean_build_cone (fuel : nat) (n : Z) :
  exits_cleanly anything (build_cone E fuel n).
Proof. unfold build_cone. clean. apply clean_cone_loop. Qed.

Lemma clean_instances_loop (fuel : nat) (n : Z) :
  forall (i : Z) (buf : block Q),
    exits_cleanly anything (instances_loop E fuel n i buf).
Proof.
  induction fuel as [|fuel IH]; intros i buf; [intros w; exact I|].
  cbn [instances_loop]. clean. apply IH.
Qed.

Lemma clean_build_instances (fuel : nat) (n : Z) :
  exits_cleanly anything (build_instances E fuel n).
Proof. unfold build_instances. clean. apply clean_instances_loop. Qed.

Lemma clean_build_quad : exits_cleanly anything build_quad.
Proof. unfold build_quad. clean. Qed.

Lemma clean_build_shader (type : GLenum) (src : string) :
  is_shader_stage type = true ->
  exits_cleanly anything (build_shader E type src).
Proof.
  intros Hstage. unfold build_shader. rewrite Hstage.
  apply clean_bind; [intros w; split; [exact I | reflexivity] | intros _].
  clean.
Qed.

Lemma clean_build_program (vert frag : Z) :
  exits_cleanly anything (build_program E vert frag).
Proof. unfold build_program. clean. Qed.

Lemma clean_version_digit (ver : string) (i : nat) :
  exits_cleanly anything (version_digit ver i).
Proof.
  unfold version_digit. destruct (String.get i ver); clean.
Qed.

Lemma clean_make_context (W H : Z) :
  exits_cleanly anything (make_context E W H).
Proof.
  unfold make_context. clean; apply clean_version_digit.
Qed.

Lemma clean_new_texture : exits_cleanly anything new_texture.
Proof. unfold new_texture. clean. Qed.

Lemma clean_make_offscreen : exits_cleanly anything (make_offscreen E).
Proof. unfold make_offscreen. clean; apply clean_new_texture. Qed.

Lemma clean_render_voronoi (p f v r c : Z) :
  exits_cleanly anything (render_voronoi p f v r c).
Proof. unfold render_voronoi. clean. Qed.

Lemma clean_frame_loop (fuel : nat) :
  exits_cleanly anything (frame_loop E fuel).
Proof.
  induction fuel as [|fuel IH]; [intros w; exact I|].
  cbn [frame_loop]. unfold frame. clean. apply IH.
Qed.

Lemma clean_voronoi_parts (fuel : nat) :
  exits_cleanly anything (voronoi_parts E fuel).
Proof.
  unfold voronoi_parts.
  clean;
    lazymatch goal with
    | |- exits_cleanly _ (make_context _ _ _) => apply clean_make_context
    | |- exits_cleanly _ (build_cone _ _ _) => apply clean_build_cone
    | |- exits_cleanly _ (build_instances _ _ _) =>
        apply clean_build_instances
    | |- exits_cleanly _ (build_program _ _ _) => apply clean_build_program
    | |- exits_cleanly _ (build_shader _ _ _) =>
        apply clean_build_shader; reflexivity
    end.
Qed.

Lemma clean_blit_parts : exits_cleanly anything (blit_parts E).
Proof.
  unfold blit_parts.
  clean;
    lazymatch goal with
    | |- exits_cleanly _ build_quad => apply clean_build_quad
    | |- exits_cleanly _ (build_program _ _ _) => apply clean_build_program
    | |- exits_cleanly _ (build_shader _ _ _) =>
        apply clean_build_shader; reflexivity
    end.
Qed.

Lemma clean_main (fuel : nat) :
  exits_cleanly (fun r => r = 0) (main E fuel).
Proof.
  unfold main.
  apply clean_bind; [apply clean_voronoi_parts | intros [[vao prog] offs]].
  apply clean_bind; [apply clean_make_offscreen | intros [fbo tex]].
  apply clean_bind; [apply clean_blit_parts | intros [blit quad]].
  apply clean_bind; [apply clean_render_voronoi | intros _].
  do 7 (apply clean_bind; [apply clean_gl | intros _]).
  apply clean_bind; [apply clean_frame_loop | intros _].
  apply clean_ret. reflexivity.
Qed.

End ExitsCleanly.

(** X5.  In every environment and with any fuel, a run ends in one of
    four ways only: [main] returns 0 with nothing written to the standard
    error stream; or [exit] is called, with status -1 and after exactly
    one diagnostic; or undefined behaviour is reached, with nothing
    written; or the run is still going.  The assertion of [build_shader]
    never fails, and no diagnostic is written without an exit. *)
Theorem exit_discipline (E : env) (fuel : nat) :
  match run E fuel with
  | Done r w => r = 0 /\ stderr w = []
  | Exited status w => status = -1 /\ exists d, stderr w = [d]
  | Aborted _ => False
  | Undefined w => stderr w = []
  | OutOfFuel => True
  end.
Proof.
  unfold run. pose proof (clean_main E fuel (initial_world E)) as H.
  destruct (main E fuel (initial_world E)); exact H.
Qed.

Section Rendering.

Variable E : env.

Lemma startup_bind {A B} (m : prog A) (k : A -> prog B) :
  startup_like m -> (forall a, startup_like (k a)) ->
  startup_like (bind m k).
Proof.
  intros Hm Hk w Hw. unfold bind. specialize (Hm w Hw).
  destruct (m w) as [a w1|c w1|w1|w1|]; trivial. apply (Hk a w1 Hm).
Qed.

Lemma rendering_bind {A B} (m : prog A) (k : A -> prog B) :
  never_fails m -> (forall a, never_fails (k a)) -> never_fails (bind m k).
Proof.
  intros Hm Hk w. unfold bind. specialize (Hm w).
  destruct (m w) as [a w1|c w1|w1|w1|]; trivial. apply (Hk a w1).
Qed.

Lemma failing_bind {A B} (m : prog A) (k : A -> prog B) :
  startup_like m -> (forall a, fails_before_rendering (k a)) ->
  fails_before_rendering (bind m k).
Proof.
  intros Hm Hk w Hw. unfold bind. specialize (Hm w Hw).
  destruct (m w) as [a w1|c w1|w1|w1|]; trivial. apply (Hk a w1 Hm).
Qed.

Lemma failing_never {A} (m : prog A) :
  never_fails m -> fails_before_rendering m.
Proof.
  intros Hm w _. specialize (Hm w). destruct (m w); trivial; contradiction.
Qed.

Lemma startup_ret {A} (a : A) : startup_like (ret a).
Proof. intros w Hw. exact Hw. Qed.

Lemma startup_gl (c : gl_call) : renders c = false -> startup_like (gl c).
Proof. intros Hc w Hw. cbn. constructor; assumption. Qed.

Lemma startup_gen_name : startup_like gen_name.
Proof. intros w Hw. exact Hw. Qed.

Lemma startup_undefined {A} : startup_like (@undefined A).
Proof. intros w Hw. exact Hw. Qed.

Lemma startup_exit {A} (c : Z) : startup_like (@exit A c).
Proof. intros w Hw. exact Hw. Qed.

Lemma startup_assert (b : bool) : startup_like (assert b).
Proof. intros w Hw. destruct b; exact Hw. Qed.

Lemma startup_fprintf (fmt : string) (a : list fprintf_arg) :
  startup_like (fprintf_stderr fmt a).
Proof. intros w Hw. exact Hw. Qed.

Lemma startup_fprintf_log (fmt : string) (buf : option (option string)) :
  startup_like (fprintf_log fmt buf).
Proof. intros w Hw. destruct buf as [[text|]|]; exact Hw. Qed.

Lemma startup_malloc {V} (bytes : Z) : startup_like (@malloc E V bytes).
Proof. intros w Hw. exact Hw. Qed.

Lemma startup_malloc_chars (bytes : Z) : startup_like (malloc_chars E bytes).
Proof. intros w Hw. exact Hw. Qed.

Lemma startup_rand : startup_like (c_rand E).
Proof.
  intros w Hw. unfold c_rand. destruct (rand (c_lib E) (rng w)). exact Hw.
Qed.

Lemma startup_store {V} (b : block V) (i : Z) (v : V) :
  startup_like (store b i v).
Proof.
  intros w Hw. unfold store. destruct b as [cells|]; [|exact Hw].
  destruct ((0 <=? i) && (i <? Z.of_nat (length cells))); exact Hw.
Qed.

Lemma startup_get_info_log (log : string) (n : Z)
    (buf : option (option string)) :
  startup_like (get_info_log log n buf).
Proof.
  intros w Hw. unfold get_info_log. destruct (n <=? 0); [exact Hw|].
  destruct buf; exact Hw.
Qed.

Lemma startup_version_digit (ver : string) (i : nat) :
  startup_like (version_digit ver i).
Proof.
  intros w Hw. unfold version_digit. destruct (String.get i ver); [exact Hw|].
  destruct (Nat.eqb i (String.length ver)); exact Hw.
Qed.

(** Decompose a program of the startup into the pieces above, following
    its syntax. *)
Ltac startup_step :=
  lazymatch goal with
  | |- startup_like (bind _ _) => apply startup_bind; [| intros ?]
  | |- startup_like (gl _) => apply startup_gl; reflexivity
  | |- startup_like (ret _) => apply startup_ret
  | |- startup_like gen_name => apply startup_gen_name
  | |- startup_like undefined => apply startup_undefined
  | |- startup_like (exit _) => apply startup_exit
  | |- startup_like (assert _) => apply startup_assert
  | |- startup_like (fprintf_stderr _ _) => apply startup_fprintf
  | |- startup_like (fprintf_log _ _) => apply startup_fprintf_log
  | |- startup_like (malloc _ _) => apply startup_malloc
  | |- startup_like (malloc_chars _ _) => apply startup_malloc_chars
  | |- startup_like (c_rand _) => apply startup_rand
  | |- startup_like (store _ _ _) => apply startup_store
  | |- startup_like (get_info_log _ _ _) => apply startup_get_info_log
  | |- startup_like (version_digit _ _) => apply startup_version_digit
  | |- startup_like (if ?b then _ else _) => destruct b
  end.

Ltac startup := repeat startup_step.

Lemma startup_cone_loop (fuel : nat) (n : Z) :
  forall (i : Z) (buf : block R), startup_like (cone_loop fuel n i buf).
Proof.
  induction fuel as [|fuel IH]; intros i buf; [intros w _; exact I|].
  cbn [cone_loop]. startup. apply IH.
Qed.

Lemma startup_instances_loop (fuel : nat) (n : Z) :
  forall (i : Z) (buf : block Q),
    startup_like (instances_loop E fuel n i buf).
Proof.
  induction fuel as [|fuel IH]; intros i buf; [intros w _; exact I|].
  cbn [instances_loop]. startup. apply IH.
Qed.

Lemma startup_voronoi_parts (fuel : nat) :
  startup_like (voronoi_parts E fuel).
Proof.
  unfold voronoi_parts, make_context, build_cone, build_instances,
    build_shader, build_program.
  startup;
    lazymatch goal with
    | |- startup_like (cone_loop _ _ _ _) => apply startup_cone_loop
    | |- startup_like (instances_loop _ _ _ _ _) =>
        apply startup_instances_loop
    end.
Qed.

Lemma startup_make_offscreen : startup_like (make_offscreen E).
Proof. unfold make_offscreen, new_texture. startup. Qed.

Lemma startup_blit_parts : startup_like (blit_parts E).
Proof.
  unfold blit_parts, build_shader, build_program, build_quad. startup.
Qed.

Lemma rendering_gl (c : gl_call) : never_fails (gl c).
Proof. intros w. exact I. Qed.

Lemma rendering_frame_loop (fuel : nat) : never_fails (frame_loop E fuel).
Proof.
  induction fuel as [|fuel IH]; [intros w; exact I|].
  cbn [frame_loop]. apply rendering_bind; [intros w; exact I|].
  intros [|]; [intros w; exact I|].
  apply rendering_bind; [intros w; exact I | intros _]. apply IH.
Qed.

Lemma rendering_render_voronoi (p f v r c : Z) :
  never_fails (render_voronoi p f v r c).
Proof. intros w. exact I. Qed.

Lemma failing_main (fuel : nat) : fails_before_rendering (main E fuel).
Proof.
  unfold main.
  apply failing_bind; [apply startup_voronoi_parts | intros [[vao prog] offs]].
  apply failing_bind; [apply startup_make_offscreen | intros [fbo tex]].
  apply failing_bind; [apply startup_blit_parts | intros [blit quad]].
  apply failing_never.
  apply rendering_bind; [apply rendering_render_voronoi | intros _].
  do 7 (apply rendering_bind; [apply rendering_gl | intros _]).
  apply rendering_bind; [apply rendering_frame_loop | intros _].
  intros w. exact I.
Qed.

End Rendering.

Lemma gl_step_silent (c : gl_call) (st : gl_state) :
  renders c = false -> observed (gl_step c st) = observed st.
Proof.
  intros Hc. destruct c; try discriminate Hc; try reflexivity;
    unfold gl_step;
    repeat match goal with
           | |- context [match ?x with _ => _ end] => destruct x
           end; reflexivity.
Qed.

Lemma silent_observations (w : world) :
  silent w -> observations (gl_log w) = [].
Proof.
  unfold silent, observations, gl_log, gl_run.
  induction (calls w) as [|c l IH]; intros Hl; [reflexivity|].
  inversion Hl as [|? ? Hc Hl' Heq]; subst.
  cbn [rev]. rewrite fold_left_app. cbn [fold_left].
  rewrite gl_step_silent by assumption. apply IH, Hl'.
Qed.

(** X6.  In every environment and with any fuel: when a run calls [exit]
    or reaches undefined behaviour, nothing has been cleared, drawn or
    presented.  Every failure of the program precedes its first clear;
    once the offscreen pass has begun, the run can only return or go on. *)
Theorem failures_precede_rendering (E : env) (fuel : nat) :
  match run E fuel with
  | Exited _ w | Aborted w | Undefined w => observations (gl_log w) = []
  | Done _ _ | OutOfFuel => True
  end.
Proof.
  unfold run.
  pose proof (failing_main E fuel (initial_world E)) as H.
  assert (H0 : silent (initial_world E)) by constructor.
  specialize (H H0).
  destruct (main E fuel (initial_world E)); trivial;
    apply silent_observations, H.
Qed.

(** *** The loop *)

Lemma frame_loop_endless (E : env) (fuel : nat) :
  (forall j, should_close E j = false) ->
  forall w, frame_loop E fuel w = OutOfFuel.
Proof.
  intros Hopen. induction fuel as [|fuel IH]; intros w; [reflexivity|].
  cbn [frame_loop]. run. rewrite Hopen. unfold frame. run. apply IH.
Qed.

(** X7.  In an environment where startup goes through and the window
    never asks to close, the run does not end: whatever the fuel, the loop
    of [main] is still running when the fuel is spent.  The loop has no
    other way out than the close request. *)
Theorem window_never_closing (E : env) (fuel : nat) :
  context_ok E -> memory_ok E -> voronoi_program_ok E ->
  framebuffer_status E = GL_FRAMEBUFFER_COMPLETE ->
  blit_program_ok E ->
  (forall j, should_close E j = false) ->
  (201 < fuel)%nat ->
  run E fuel = OutOfFuel.
Proof.
  intros Hctx Hmem Hvor Hst (Hqv & Hqf & Hlink) Hopen Hfuel.
  unfold run, main.
  call voronoi_parts_run; trivial.
  call make_offscreen_complete; trivial.
  unfold blit_parts.
  unfold bind at 1. unfold bind at 1.
  rewrite build_shader_compiled; [| reflexivity | assumption]. run.
  call build_shader_compiled; [| reflexivity | assumption].
  call build_program_linked; [| apply Hlink].
  call build_quad_run.
  call render_voronoi_run.
  unfold bind at 1. rewrite frame_loop_endless by assumption. reflexivity.
Qed.

Lemma window_never_closing_witness : run endless_env 1000 = OutOfFuel.
Proof.
  apply (window_never_closing endless_env 1000);
    [repeat split | intros k b; reflexivity | repeat split | reflexivity
    | repeat split | intros j; reflexivity | lia].
Defined.

(** *** Shaders *)



(** *** Colours *)

(** X9.  The colour of an instance depends on the low 24 bits of its
    index only: instances [k] and [k + 2^24] get the same colour and the
    same bytes, so the encoding is not injective past [2^24]. *)
Theorem color_wraps_at_24_bits (k : Z) :
  0 <= k ->
  Shader.instance_color (k + 2 ^ 24) = Shader.instance_color k
  /\ Shader.encode (k + 2 ^ 24) = Shader.encode k.
Proof.
  intros Hk.
  assert (Hrgb : Shader.instance_rgb (k + 2 ^ 24) = Shader.instance_rgb k).
  { rewrite !instance_rgb_nonneg by lia.
    assert (H1 : (k + 2 ^ 24) mod 256 = k mod 256)
      by (change (2 ^ 24) with (65536 * 256); apply Z.mod_add; lia).
    assert (H2 : (k + 2 ^ 24) / 256 = k / 256 + 256 * 256)
      by (change (2 ^ 24) with (65536 * 256); rewrite Z.div_add by lia;
          reflexivity).
    assert (H3 : (k + 2 ^ 24) / 65536 = k / 65536 + 1 * 256)
      by (change (2 ^ 24) with (256 * 65536); rewrite Z.div_add by lia;
          reflexivity).
    rewrite H1, H2, H3, !Z.mod_add by lia. reflexivity. }
  unfold Shader.encode, Shader.instance_color. rewrite Hrgb. split; reflexivity.
Qed.

Lemma color_wraps_at_24_bits_witness :
  Shader.instance_color (99 + 2 ^ 24) = Shader.instance_color 99
  /\ Shader.encode (99 + 2 ^ 24) = Shader.encode 99.
Proof. apply (color_wraps_at_24_bits 99). lia. Defined.

(** *** The diagram *)







(** *** The cone *)



Lemma store_inside {V} (cells : list (option V)) (i : Z) (v : V) (w : world) :
  0 <= i < Z.of_nat (length cells) ->
  store (Some cells) i v w = Done (Some (<[Z.to_nat i := Some v]> cells)) w.
Proof.
  intros Hi. unfold store.
  replace ((0 <=? i) && (i <? Z.of_nat (length cells))) with true by lia.
  reflexivity.
Qed.

Lemma store_outside {V} (cells : list (option V)) (i : Z) (v : V) (w : world) :
  Z.of_nat (length cells) <= i -> store (Some cells) i v w = Undefined w.
Proof.
  intros Hi. unfold store.
  replace ((0 <=? i) && (i <? Z.of_nat (length cells))) with false by lia.
  reflexivity.
Qed.

(** A store into a block: inside, it keeps the length; outside, it is
    undefined. *)
Lemma store_cases {V} (cells : list (option V)) (i : Z) (v : V) (w : world) :
  0 <= i ->
  (exists cells', store (Some cells) i v w = Done (Some cells') w
                  /\ length cells' = length cells
                  /\ i < Z.of_nat (length cells))
  \/ (store (Some cells) i v w = Undefined w
      /\ Z.of_nat (length cells) <= i).
Proof.
  intros Hi. destruct (Z_lt_le_dec i (Z.of_nat (length cells))) as [Hlt|Hge].
  - left. eexists. split; [apply store_inside; lia|].
    split; [apply length_insert | exact Hlt].
  - right. split; [apply store_outside; exact Hge | exact Hge].
Qed.

(** The loop on a block too short for the ring never leaves normally. *)
Lemma cone_loop_overruns (n : Z) (fuel : nat) :
  forall (i : Z) (cells : list (option R)) (w : world),
    0 <= i <= n ->
    3 * i <= Z.of_nat (length cells) ->
    Z.of_nat (length cells) <= 3 * n + 5 ->
    Z.of_nat (length cells) < 2 ^ 62 ->
    match cone_loop fuel n i (Some cells) w with
    | Undefined _ | OutOfFuel => True
    | _ => False
    end.
Proof.
  induction fuel as [|fuel IH]; intros i cells w Hi Hlow Hhigh Hsmall;
    [exact I|].
  cbn [cone_loop]. replace (i <=? n) with true by lia.
  assert (Hw : forall z, 0 <= z <= 2 ^ 62 + 5 -> SizeT.wrap z = z).
  { intros z Hz. apply wrap_small. rewrite size_max_value.
    change (2 ^ 62) with 4611686018427387904 in Hz. lia. }
  change (2 ^ 62) with 4611686018427387904 in *.
  unfold SizeT.add, SizeT.mul. rewrite (Hw (i * 3)) by lia.
  rewrite !Hw by lia.
  unfold bind at 1.
  destruct (store_cases cells (i * 3 + 3) (cos (ring_angle n i)) w
              ltac:(lia)) as [(c1 & -> & Hl1 & Hin1) | [-> _]];
    [| exact I].
  unfold bind at 1.
  destruct (store_cases c1 (i * 3 + 4) (sin (ring_angle n i)) w
              ltac:(lia)) as [(c2 & -> & Hl2 & Hin2) | [-> _]];
    [| exact I].
  unfold bind at 1.
  destruct (store_cases c2 (i * 3 + 5) 1%R w
              ltac:(lia)) as [(c3 & -> & Hl3 & Hin3) | [-> _]];
    [| exact I].
  apply IH; lia.
Qed.

(** X13.  Whenever the byte count [(n + 2) * 3 * sizeof(float)] of
    [build_cone] wraps around [size_t], the function does not return: the
    block it obtains is too short for the [n + 2] vertices and a store
    lands outside it (or the allocation fails and the first store goes
    through the null pointer); in the model the outcome is undefined
    behaviour, or the fuel runs out before the store is reached.  The
    absence of wrap-around is necessary for [build_cone] to return, not
    only sufficient. *)
Theorem cone_wrap_never_returns (E : env) (fuel : nat) (n : Z) (w : world) :
  0 <= n <= SizeT.SIZE_MAX ->
  SizeT.SIZE_MAX < 12 * (n + 2) ->
  match build_cone E fuel n w with
  | Undefined _ | OutOfFuel => True
  | _ => False
  end.
Proof.
  intros Hn Hwrap. rewrite size_max_value in *. unfold build_cone.
  set (bytes := SizeT.mul (SizeT.mul (SizeT.add n 2) 3) SizeT.sizeof_float).
  assert (Hbytes : 0 <= bytes < 2 ^ 64).
  { subst bytes. unfold SizeT.mul at 1, SizeT.wrap.
    apply Z.mod_pos_bound. reflexivity. }
  unfold malloc, malloc_raw, bind at 1 2. unfold ret at 1.
  destruct (malloc_ok E (mallocs w) bytes); [| exact I].
  set (w1 := {| rng := rng w |}).
  assert (Hlen : Z.of_nat (length (@fresh_block R bytes)) = bytes / 4).
  { unfold fresh_block. rewrite length_replicate, Z2Nat.id; [reflexivity|].
    apply Z.div_pos; [apply Hbytes | reflexivity]. }
  change (2 ^ 64) with 18446744073709551616 in Hbytes.
  assert (Hc : 0 <= bytes / 4 < 4611686018427387904).
  { split; [apply Z.div_pos; lia|].
    apply Z.div_lt_upper_bound; lia. }
  generalize dependent (@fresh_block R bytes). intros cells Hlen.
  unfold bind at 1.
  destruct (store_cases cells 0 0%R w1 ltac:(lia))
    as [(c1 & -> & Hl1 & Hin1) | [-> _]]; [| exact I].
  unfold bind at 1.
  destruct (store_cases c1 1 0%R w1 ltac:(lia))
    as [(c2 & -> & Hl2 & Hin2) | [-> _]]; [| exact I].
  unfold bind at 1.
  destruct (store_cases c2 2 (-1)%R w1 ltac:(lia))
    as [(c3 & -> & Hl3 & Hin3) | [-> _]]; [| exact I].
  unfold bind at 1.
  pose proof (cone_loop_overruns n fuel 0 c3 w1) as Hloop.
  destruct (cone_loop fuel n 0 (Some c3) w1); try exact I;
    apply Hloop; try (change (2 ^ 62) with 4611686018427387904); lia.
Qed.

Lemma cone_wrap_never_returns_witness :
  match build_cone (nominal_env 0 0) 5 1537228672809129300
          (initial_world (nominal_env 0 0)) with
  | Undefined _ | OutOfFuel => True
  | _ => False
  end.
Proof.
  apply (cone_wrap_never_returns (nominal_env 0 0) 5 1537228672809129300);
    rewrite size_max_value; lia.
Defined.

(** *** The present pass *)

Lemma to_int_integer (i : Z) : Blit.to_int (inject_Z i) = i.
Proof. unfold Blit.to_int. cbn. apply Z.quot_1_r. Qed.

Lemma to_unorm8_range (c : Q) : 0 <= Shader.to_unorm8 c <= 255.
Proof. unfold Shader.to_unorm8. lia. Qed.

(** Whatever the pixel, the offscreen pass leaves bytes in it. *)
Lemma render_bytes (offsets : list Shader.vec2) (p : Shader.vec2) :
  let '(r, g, b) := Raster.render offsets p in
  0 <= r <= 255 /\ 0 <= g <= 255 /\ 0 <= b <= 255.
Proof.
  unfold Raster.render.
  destruct (render_invariant p offsets) as [[-> _] | (k & o & _ & -> & _)].
  - unfold Raster.cleared. cbn [Raster.color Shader.store_rgb8].
    repeat split; apply to_unorm8_range.
  - cbn [Raster.color]. unfold Shader.encode, Shader.store_rgb8.
    destruct (Shader.voronoi_frag (Shader.instance_color (Z.of_nat k)))
      as [[[r g] b] a].
    repeat split; apply to_unorm8_range.
Qed.

(** X14.  The present pass shows the offscreen colour attachment
    unchanged: at every pixel of the viewport, the bytes the blit fragment
    stage writes for the texel it fetches are the bytes of that texel, so
    the window decodes to the same instance as the offscreen target. *)
Theorem blit_preserves_owner (offsets : list Shader.vec2) (i j : Z) :
  0 <= i < width -> 0 <= j < height ->
  Shader.store_rgb8
    (Blit.blit_frag (Blit.offscreen_texture offsets) (Blit.frag_coord (i, j)))
  = Blit.offscreen_texture offsets (i, j)
  /\ spec_decode
       (Shader.store_rgb8
          (Blit.blit_frag (Blit.offscreen_texture offsets)
             (Blit.frag_coord (i, j))))
     = Raster.owner offsets (Raster.pixel_center width height (i, j)).
Proof.
  intros _ _.
  assert (Hbytes :
    Shader.store_rgb8
      (Blit.blit_frag (Blit.offscreen_texture offsets)
         (Blit.frag_coord (i, j)))
    = Blit.offscreen_texture offsets (i, j)).
  { unfold Blit.blit_frag, Blit.frag_coord. cbn [fst snd].
    rewrite !to_int_integer. unfold Blit.offscreen_texture.
    pose proof (render_bytes offsets
                  (Raster.pixel_center width height (i, j))) as Hr.
    destruct (Raster.render offsets (Raster.pixel_center width height (i, j)))
      as [[r g] b].
    destruct Hr as (Hr & Hg & Hb). cbn [Blit.texel_of_bytes Shader.store_rgb8].
    rewrite !to_unorm8_channel by assumption. reflexivity. }
  split; [exact Hbytes|]. rewrite Hbytes. reflexivity.
Qed.

Lemma blit_preserves_owner_witness :
  let offsets := [(-1 # 2, 0); (1 # 2, 0)]%Q in
  Shader.store_rgb8
    (Blit.blit_frag (Blit.offscreen_texture offsets)
       (Blit.frag_coord (300, 200)))
  = Blit.offscreen_texture offsets (300, 200)
  /\ spec_decode
       (Shader.store_rgb8
          (Blit.blit_frag (Blit.offscreen_texture offsets)
             (Blit.frag_coord (300, 200))))
     = Raster.owner offsets (Raster.pixel_center width height (300, 200)).
Proof.
  intros offsets.
  apply (blit_preserves_owner offsets 300 200); unfold width, height; lia.
Defined.

(** *** Bindings *)

Lemma gl_run_more (log more : list gl_call) :
  gl_run (log ++ more) = gl_steps more (gl_run log).
Proof. unfold gl_run, gl_steps. apply fold_left_app. Qed.

(** X15.  [render_voronoi] leaves no binding of its own behind: whatever
    the state of the backend before, after it the framebuffer, the program
    and the vertex array bound are all 0 and the buffers and attachments
    are untouched; but the depth test stays enabled and the clear colour
    and depth stay [(1, 1, 0, 1)] and 1.  It records one clear of [fbo]
    and one instanced draw into it, reading the attributes of [vao]. *)
Theorem render_voronoi_bindings (program fbo vao res count : Z) (w : world) :
  exists w',
    render_voronoi program fbo vao res count w = Done tt w'
    /\ let st := gl_run (gl_log w) in
       let st' := gl_run (gl_log w') in
       framebuffer st' = 0 /\ program_in_use st' = 0 /\ vertex_array st' = 0
       /\ depth_test st' = true
       /\ clear_color st' = (1, 1, 0, 1)%Q /\ clear_depth st' = 1%Q
       /\ array_buffer st' = array_buffer st
       /\ texture_2d st' = texture_2d st
       /\ buffers st' = buffers st /\ attribs st' = attribs st
       /\ images st' = images st
       /\ color_attachment st' = color_attachment st
       /\ depth_attachment st' = depth_attachment st
       /\ observed st'
          = [ DrewInstanced fbo program true GL_TRIANGLE_FAN
                (SizeT.add res 2) count
                (b ← attribs st !! (vao, 0); buffers st !! b)
                (b ← attribs st !! (vao, 1); buffers st !! b);
              Cleared fbo (Some (1, 1, 0, 1)%Q) (Some 1%Q) ]
            ++ observed st.
Proof.
  eexists. split; [apply render_voronoi_run|].
  unfold gl_log, issue. cbn [calls]. rewrite rev_app_distr, gl_run_more.
  generalize (gl_run (rev (calls w))). intros st.
  destruct st; cbn. repeat split.
Qed.

(** X16.  [build_quad] returns a vertex array whose attribute 0 reads a
    buffer holding the four corners [(-1,-1), (1,-1), (1,1), (-1,1)] of
    clip space, and leaves no vertex array bound; the array buffer binding
    is left on the new buffer.  The attributes of every other vertex array
    are as before. *)
Theorem build_quad_wiring (w : world) :
  exists vao vbo w',
    build_quad w = Done vao w'
    /\ let st := gl_run (gl_log w) in
       let st' := gl_run (gl_log w') in
       vertex_array st' = 0
       /\ array_buffer st' = vbo
       /\ attribs st' !! (vao, 0) = Some vbo
       /\ buffers st' !! vbo
          = Some (RatData (map Some [-1; -1; 1; -1; 1; 1; -1; 1]%Q))
       /\ (forall v index, v <> vao ->
             attribs st' !! (v, index) = attribs st !! (v, index))
       /\ observed st' = observed st.
Proof.
  eexists _, _, _. split; [apply build_quad_run|].
  unfold gl_log, advance. cbn [calls]. rewrite rev_app_distr, gl_run_more.
  generalize (gl_run (rev (calls w))). intros st.
  destruct st; cbn.
  split; [reflexivity|]. split; [reflexivity|].
  split; [apply lookup_insert_eq|]. split; [apply lookup_insert_eq|].
  split; [|reflexivity].
  intros v index Hv. apply lookup_insert_ne. congruence.
Qed.

(** *** The draw and its buffers *)

(** X17.  In a run that completes, the instanced draw reads its two
    buffers in full and never past them: the vertex buffer bound to
    attribute 0 holds three initialized floats for each of the vertices
    drawn, and the buffer bound to attribute 1 two initialized floats for
    each of the instances drawn. *)
Theorem draw_matches_buffers (E : env) (fuel k : nat) :
  context_ok E -> memory_ok E -> voronoi_program_ok E ->
  framebuffer_status E = GL_FRAMEBUFFER_COMPLETE ->
  blit_program_ok E ->
  closes_at E k ->
  (201 < fuel)%nat -> (k < fuel)%nat ->
  exists w clear target prog count instances vs os rest,
    run E fuel = Done 0 w
    /\ observations (gl_log w)
       = clear
         :: DrewInstanced target prog true GL_TRIANGLE_FAN count instances
              (Some (RealData vs)) (Some (RatData os))
         :: rest
    /\ Z.of_nat (length vs) = 3 * count
    /\ Z.of_nat (length os) = 2 * instances
    /\ Forall is_Some vs /\ Forall is_Some os.
Proof.
  intros Hctx Hmem Hvor Hst Hblit Hclose Hfuel Hk.
  eexists _, _, _, _, _, _, _, _, _.
  split; [apply (main_run E fuel k); assumption|].
  split.
  { unfold observations, gl_log, end_world. cbn [calls].
    rewrite (proj1 (run_observations (c_lib E) k)).
    unfold spec_offscreen_pass, main_cone, main_offsets. cbn [app].
    reflexivity. }
  rewrite !length_map, cone_vertices_length. unfold main_draws.
  rewrite draw_offsets_length.
  split; [reflexivity|]. split; [reflexivity|].
  split; apply all_written.
Qed.

Lemma draw_matches_buffers_witness :
  exists w clear target prog count instances vs os rest,
    run (nominal_env 2 0) 300 = Done 0 w
    /\ observations (gl_log w)
       = clear
         :: DrewInstanced target prog true GL_TRIANGLE_FAN count instances
              (Some (RealData vs)) (Some (RatData os))
         :: rest
    /\ Z.of_nat (length vs) = 3 * count
    /\ Z.of_nat (length os) = 2 * instances
    /\ Forall is_Some vs /\ Forall is_Some os.
Proof.
  apply (draw_matches_buffers (nominal_env 2 0) 300 2);
    [apply nominal_context_ok | intros j b; reflexivity | repeat split
    | reflexivity | repeat split
    | split; [reflexivity | intros j Hj; apply Nat.leb_gt; lia]
    | lia | lia].
Defined.

(** *** Adding a seed *)



